(** * Reacher API gateway: request pipeline of [src/index.js]

    A shallow embedding of the gateway's Express application: the CORS
    middleware, the request logger, the health and root endpoints, the JWT
    middleware [verifyToken], the seven proxy mounts and the closing 404 and
    500 handlers, in their order of registration.

    The third-party packages the file calls are modelled by what they do with
    the arguments this program gives them:
    - [jsonwebtoken.verify] is a parameter ([jwt_verify]): it returns the
      decoded payload or throws one of the package's errors;
    - the upstream services are a parameter ([upstream]): each proxied request
      is answered or fails with a network error code;
    - [process.env] and the clock are parameters ([env], [now]);
    - Node's [url.parse], which Express falls back on for a request target
      that is not a plain path, is a parameter ([url_parse_pathname]);
    - Express routing, [cors()] and [createProxyMiddleware] are functions of
      this file, written from the behaviour of Express 4, cors 2 and
      http-proxy-middleware 2 (the version whose option names, [onError] and
      [onProxyReq], the source uses) under the options the source passes.

    The repository holds a second, older copy of the gateway. Its
    [verifyToken] is the same; its proxies differ in their options, which are
    recorded in [legacy_mounts].

    The console output of request handling, response headers and request
    bodies are not part of the pipeline model; the start-up log and the body
    re-sending of the auth proxy's [onProxyReq] are modelled on their own
    ([startup_log], [onProxyReq]). Strings stand for their UTF-8 bytes. *)

From stdpp Require Import gmap strings list fin_maps.
From Stdlib Require Import ZArith Ascii String.

Open Scope string_scope.
Open Scope Z_scope.

(** ** JavaScript values *)

#[warnings="-register-all"]
Inductive jsval : Type :=
| VUndefined
| VNull
| VBool (b : bool)
| VNum (n : Z)
| VStr (s : string)
| VArr (items : list jsval)
| VObj (props : list (string * jsval)).

(** The value [jwt.verify(token, secret)] returns when it does not throw: the
    payload object, or the payload string when it is not JSON. *)
Inductive jwt_payload : Type :=
| JwtPayload (props : list (string * jsval))
| JwtString (s : string).

(** The errors [jwt.verify] throws. *)
Inductive jwt_error : Type :=
| JsonWebTokenError (message : string)
| TokenExpiredError
| NotBeforeError.

Inductive jwt_result : Type :=
| Verified (decoded : jwt_payload)
| VerifyThrows (err : jwt_error).

(** [obj_get props k] is the own property [k] of an object literal. *)
Fixpoint obj_get (props : list (string * jsval)) (k : string) : option jsval :=
  match props with
  | [] => None
  | (k', v) :: rest => if String.eqb k' k then Some v else obj_get rest k
  end.

(** [decoded.userId] and [decoded.email]: the claim, or [undefined] when the
    payload has no such property (a string payload has neither). *)
Definition claim (decoded : jwt_payload) (k : string) : jsval :=
  match decoded with
  | JwtPayload props => default VUndefined (obj_get props k)
  | JwtString _ => VUndefined
  end.

(** ** Strings *)

Definition is_upper (c : ascii) : bool :=
  let n := nat_of_ascii c in (Nat.leb 65 n && Nat.leb n 90)%bool.

Definition is_lower (c : ascii) : bool :=
  let n := nat_of_ascii c in (Nat.leb 97 n && Nat.leb n 122)%bool.

Definition lower_ascii (c : ascii) : ascii :=
  if is_upper c then ascii_of_nat (nat_of_ascii c + 32) else c.

Definition upper_ascii (c : ascii) : ascii :=
  if is_lower c then ascii_of_nat (nat_of_ascii c - 32) else c.

Fixpoint toLowerCase (s : string) : string :=
  match s with
  | "" => ""
  | String c s' => String (lower_ascii c) (toLowerCase s')
  end.

Fixpoint toUpperCase (s : string) : string :=
  match s with
  | "" => ""
  | String c s' => String (upper_ascii c) (toUpperCase s')
  end.

(** [s.split(sep)] for a one-character separator. *)
Fixpoint split (sep : ascii) (s : string) : list string :=
  match s with
  | "" => [""]
  | String c s' =>
      if Ascii.eqb c sep then "" :: split sep s'
      else match split sep s' with
           | [] => [String c ""]
           | w :: ws => String c w :: ws
           end
  end.

(** [strip_prefix p s] is [Some r] when [s = p ++ r]. *)
Fixpoint strip_prefix (p s : string) : option string :=
  match p, s with
  | "", _ => Some s
  | String a p', String b s' =>
      if Ascii.eqb a b then strip_prefix p' s' else None
  | String _ _, "" => None
  end.

(** The same comparison under a regular expression's [i] flag. *)
Fixpoint strip_prefix_ci (p s : string) : option string :=
  match p, s with
  | "", _ => Some s
  | String a p', String b s' =>
      if Ascii.eqb (lower_ascii a) (lower_ascii b)
      then strip_prefix_ci p' s' else None
  | String _ _, "" => None
  end.

(** [s.includes(needle)] *)
Fixpoint includes (needle s : string) : bool :=
  match strip_prefix needle s with
  | Some _ => true
  | None => match s with
            | "" => false
            | String _ s' => includes needle s'
            end
  end.

(** The part of a string before the first [?]. *)
Fixpoint before_query (url : string) : string :=
  match url with
  | "" => ""
  | String c s' => if Ascii.eqb c "?" then "" else String c (before_query s')
  end.

(** The characters that make [parseurl] leave its fast path: tab, line
    feed, form feed, carriage return, space, [#], U+00A0 and U+FEFF. *)
Definition no_break_space : string :=
  String (ascii_of_nat 194) (String (ascii_of_nat 160) "").

Definition byte_order_mark : string :=
  String (ascii_of_nat 239) (String (ascii_of_nat 187)
    (String (ascii_of_nat 191) "")).

Fixpoint has_byte (codes : list nat) (s : string) : bool :=
  match s with
  | "" => false
  | String c s' =>
      (existsb (Nat.eqb (nat_of_ascii c)) codes || has_byte codes s')%bool
  end.

(** A request target [parseurl] reads by itself: it starts with [/] and has
    none of those characters. *)
Definition plain_target (u : string) : bool :=
  match u with
  | String c _ =>
      (Ascii.eqb c "/" && negb (has_byte [9; 10; 12; 13; 32; 35]%nat u)
       && negb (includes no_break_space u)
       && negb (includes byte_order_mark u))%bool
  | "" => false
  end.

(** ** Header values

    The text Node accepts in a header: tab, the printable ASCII characters
    and U+0080 to U+00FF (in UTF-8, a byte 194 or 195 and its continuation
    byte). *)
Fixpoint legal_text (s : string) : bool :=
  match s with
  | "" => true
  | String c s' =>
      let n := nat_of_ascii c in
      if Nat.ltb n 128
      then ((Nat.eqb n 9 || (Nat.leb 32 n && Nat.leb n 126)) && legal_text s')%bool
      else if (Nat.eqb n 194 || Nat.eqb n 195)%bool
      then match s' with
           | String d s'' =>
               (Nat.leb 128 (nat_of_ascii d) && Nat.leb (nat_of_ascii d) 191
                && legal_text s'')%bool
           | "" => false
           end
      else false
  end.

(** Whether [String(v)] is such text. Numbers, booleans, [null] and plain
    objects always are; an array is its elements joined by commas. *)
Fixpoint coercion_legal (v : jsval) : bool :=
  match v with
  | VStr s => legal_text s
  | VArr items => forallb coercion_legal items
  | _ => true
  end.

(** Node's check of a header value of an outgoing request: [undefined] is
    refused, any other value is taken as its string. *)
Definition validHeaderValue (v : jsval) : bool :=
  match v with
  | VUndefined => false
  | _ => coercion_legal v
  end.

Definition headers_legal (h : gmap string string) : Prop :=
  map_Forall (λ _ v, legal_text v = true) h.

(** The headers of a request the proxy is about to send are all accepted. *)
Definition outgoing_ok (h : gmap string jsval) : bool :=
  bool_decide (map_Forall (λ _ v, validHeaderValue v = true) h).

(** ** Requests, responses and the exchange a middleware works on *)

(** A request as Node hands it over: [in_url] is the request target, header
    names are lower-cased and every value is a string of the text Node's
    parser lets through ([in_legal]). *)
Record incoming : Type := Incoming {
  in_method : string;
  in_url : string;
  in_headers : gmap string string;
  in_legal : bool_decide (headers_legal in_headers) = true
}.

(** The [req] object the middlewares see and mutate. [url] is
    [req.originalUrl]; [user] is [req.user]. *)
Record request : Type := Request {
  method : string;
  url : string;
  headers : gmap string jsval;
  user : option jwt_payload
}.

Inductive body : Type :=
| Json (v : jsval)
| Text (s : string)
| NoBody.

(** A response: the status and the body the handler passes to [res.json] or
    [res.end] (for a HEAD request Node leaves the body off the wire). *)
Record response : Type := Response {
  status : Z;
  payload : body
}.

(** A request the proxy issues: the target it connects to, the method, the
    rewritten [req.url] (which http-proxy appends to the path of the target
    URL) and [req.headers] as the gateway leaves them. *)
Record upstream_request : Type := UpstreamRequest {
  u_target : string;
  u_method : string;
  u_url : string;
  u_headers : gmap string jsval
}.

Inductive upstream_result : Type :=
| Replied (r : response)
| Failed (code : string).

(** The state of one request: the request object, the responses written to
    the client so far and the requests sent upstream so far. *)
Record exchange : Type := Exchange {
  req : request;
  sent : list response;
  forwarded : list upstream_request
}.

(** The outgoing request [proxyReq] as [onProxyReq] acts on it: its headers
    (names are kept lower-cased, as [setHeader] and [getHeader] do), the
    chunks written to it and whether it was ended. *)
Record proxy_request : Type := ProxyRequest {
  pr_headers : gmap string jsval;
  pr_written : list string;
  pr_ended : bool
}.

(** How a middleware hands over control: it called [next()], it returned
    without calling it, or it threw. *)
Inductive signal : Type :=
| Next
| Halt
| Throw.

Definition handler : Type := exchange → signal * exchange.

Definition accept (i : incoming) : request :=
  Request (in_method i) (in_url i) (VStr <$> in_headers i) None.

Definition start (i : incoming) : exchange := Exchange (accept i) [] [].

(** [res.status(code).json(v)] *)
Definition res_json (code : Z) (v : jsval) (x : exchange) : exchange :=
  Exchange (req x) (sent x ++ [Response code (Json v)]) (forwarded x).

Definition res_send (r : response) (x : exchange) : exchange :=
  Exchange (req x) (sent x ++ [r]) (forwarded x).

Definition envelope (message : string) : jsval :=
  VObj [("success", VBool false); ("error", VStr message)].

(** ** Fixtures used by the worked examples *)

Module Fixtures.

(** An environment with no variable set: every default of the source applies. *)
Definition env0 : gmap string string := ∅.

Definition alice : jwt_payload :=
  JwtPayload [("userId", VStr "u-17"); ("email", VStr "alice@reacher.test");
              ("iat", VNum 1700000000); ("exp", VNum 4102444800)].

(** A correctly signed, unexpired payload that carries no [userId]. *)
Definition nameless : jwt_payload :=
  JwtPayload [("email", VStr "bob@reacher.test"); ("iat", VNum 1700000000)].

(** A verifier that knows four tokens, all checked against the default
    secret: [tok.alice] and [tok.nameless] verify, [tok.expired] is past its
    expiry, [tok.forged] was signed under another secret; any other string
    is not a JWT. *)
Definition jwt_verify0 (token secret : string) : jwt_result :=
  if negb (String.eqb secret "dev-secret-key")
  then VerifyThrows (JsonWebTokenError "invalid signature")
  else if String.eqb token "tok.alice" then Verified alice
  else if String.eqb token "tok.nameless" then Verified nameless
  else if String.eqb token "tok.expired" then VerifyThrows TokenExpiredError
  else if String.eqb token "tok.forged"
       then VerifyThrows (JsonWebTokenError "invalid signature")
  else VerifyThrows (JsonWebTokenError "jwt malformed").

(** Every backend is down. *)
Definition all_down (u : upstream_request) : upstream_result :=
  Failed "ECONNREFUSED".

(** Every backend answers 200 and echoes the path it was asked for. *)
Definition all_up (u : upstream_request) : upstream_result :=
  Replied (Response 200 (Json (VObj [("path", VStr (u_url u))]))).

Definition now0 : string := "2024-05-01T12:00:00.000Z".

(** A stand-in for [url.parse(target).pathname], enough for the examples: it
    drops a scheme and host and cuts at the first [?] or [#]. *)
Fixpoint until_hash (s : string) : string :=
  match s with
  | "" => ""
  | String c s' =>
      if (Ascii.eqb c "?" || Ascii.eqb c "#")%bool then ""
      else String c (until_hash s')
  end.

Fixpoint from_slash (s : string) : string :=
  match s with
  | "" => "/"
  | String c s' => if Ascii.eqb c "/" then s else from_slash s'
  end.

Definition url_parse0 (target : string) : string :=
  match strip_prefix "http://" target with
  | Some rest => until_hash (from_slash rest)
  | None => until_hash target
  end.

Definition no_headers : gmap string string := ∅.

Definition bearer (token : string) : gmap string string :=
  {[ "authorization" := "Bearer " +:+ token ]}.

Definition preflight_users : incoming :=
  Incoming "OPTIONS" "/api/users" no_headers eq_refl.

Definition preflight_forged : incoming :=
  Incoming "OPTIONS" "/api/trust/reports" (bearer "tok.forged") eq_refl.

Definition preflight_expired : incoming :=
  Incoming "OPTIONS" "/api/trust/reports" (bearer "tok.expired") eq_refl.

Definition get_users_anonymous : incoming :=
  Incoming "GET" "/api/users/7" no_headers eq_refl.

Definition get_trust_forged : incoming :=
  Incoming "GET" "/api/trust/reports" (bearer "tok.forged") eq_refl.

Definition get_messages_expired : incoming :=
  Incoming "GET" "/api/messages?unread=1" (bearer "tok.expired") eq_refl.

Definition get_users_alice : incoming :=
  Incoming "GET" "/api/users/7"
    (<["host" := "gateway.reacher.test"]> (bearer "tok.alice")) eq_refl.

Definition get_users_nameless : incoming :=
  Incoming "GET" "/api/users/7" (bearer "tok.nameless") eq_refl.




Definition post_login_uppercase : incoming :=
  Incoming "POST" "/API/AUTH/login" no_headers eq_refl.


(** A valid token after two spaces. *)
Definition get_users_two_spaces : incoming :=
  Incoming "GET" "/api/users/7" {[ "authorization" := "Bearer  tok.alice" ]} eq_refl.



Definition post_login_as_admin : incoming :=
  Incoming "POST" "/api/auth/login" {[ "x-user-id" := "admin" ]} eq_refl.

(** A path that only starts like a protected prefix. *)
Definition get_lookalike : incoming :=
  Incoming "GET" "/api/usersX/7?x=1" (bearer "tok.alice") eq_refl.

(** What the user service receives for [get_users_alice]. *)
Definition alice_upstream : upstream_request :=
  UpstreamRequest "http://localhost:5002" "GET" "/7"
    (<["x-user-email" := VStr "alice@reacher.test"]>
       (<["x-user-id" := VStr "u-17"]>
          (VStr <$> in_headers get_users_alice))).

(** An outgoing request that already has a content type. *)
Definition outgoing_form : proxy_request :=
  ProxyRequest {[ "content-type" := VStr "application/x-www-form-urlencoded" ]}
    [] false.

End Fixtures.

(** ** The gateway *)

Section Gateway.

(** [process.env] *)
Variable env : gmap string string.
(** [jwt.verify(token, secret)] *)
Variable jwt_verify : string → string → jwt_result.
(** The backends: what happens to a request the proxy sends. *)
Variable upstream : upstream_request → upstream_result.
(** [new Date().toISOString()] *)
Variable now : string.
(** [url.parse(target).pathname] *)
Variable url_parse_pathname : string → string.

(** [parseurl(req).pathname], the path Express routes on: a plain target is
    cut at its first [?], any other is handed to [url.parse]. *)
Definition pathname (u : string) : string :=
  if plain_target u then before_query u else url_parse_pathname u.

(** [process.env.NAME || fallback] *)
Definition env_or (name fallback : string) : string :=
  match env !! name with
  | Some v => if String.eqb v "" then fallback else v
  | None => fallback
  end.

Definition JWT_SECRET : string := env_or "JWT_SECRET" "dev-secret-key".

Record services : Type := Services {
  AUTH : string;
  USER : string;
  PRODUCT : string;
  PROVIDER : string;
  TRUST : string;
  MESSAGE : string;
  NOTIFICATION : string
}.

Definition SERVICES : services := {|
  AUTH := env_or "AUTH_SERVICE_URL" "http://localhost:5001";
  USER := env_or "USER_SERVICE_URL" "http://localhost:5002";
  PRODUCT := env_or "PRODUCT_SERVICE_URL" "http://localhost:5003";
  PROVIDER := env_or "PROVIDER_SERVICE_URL" "http://localhost:5004";
  TRUST := env_or "TRUST_SERVICE_URL" "http://localhost:5005";
  MESSAGE := env_or "MESSAGE_SERVICE_URL" "http://localhost:5006";
  NOTIFICATION := env_or "NOTIFICATION_SERVICE_URL" "http://localhost:5007"
|}.

(** *** [cors()]

    With its default options the package answers every OPTIONS request
    itself (204, empty body) and passes every other request on. *)
Definition cors : handler := fun x =>
  if String.eqb (toUpperCase (method (req x))) "OPTIONS"
  then (Halt, res_send (Response 204 NoBody) x)
  else (Next, x).

(** *** [verifyToken] *)

(** The outcome of [req.headers.authorization?.split(' ')[1]]. *)
Inductive token_lookup : Type :=
| NotAString                 (* [.split] is not a function: TypeError *)
| Token (t : option string). (* [None] is [undefined] *)

Definition bearer_token (r : request) : token_lookup :=
  match headers r !! "authorization" with
  | None | Some VUndefined | Some VNull => Token None
  | Some (VStr a) => Token (split " " a !! 1%nat)
  | Some _ => NotAString
  end.

(** The test [!token]: [undefined] and the empty string are falsy. *)
Definition truthy (token : option string) : option string :=
  match token with
  | Some s => if String.eqb s "" then None else Some s
  | None => None
  end.

Definition set_user (decoded : jwt_payload) (r : request) : request :=
  Request (method r) (url r) (headers r) (Some decoded).

Definition set_header (k : string) (v : jsval) (r : request) : request :=
  Request (method r) (url r) (<[k := v]> (headers r)) (user r).

Definition verifyToken : handler := fun x =>
  match bearer_token (req x) with
  | NotAString => (Throw, x)
  | Token token =>
      match truthy token with
      | None => (Halt, res_json 401 (envelope "No token provided") x)
      | Some t =>
          match jwt_verify t JWT_SECRET with
          | Verified decoded =>
              let r := set_user decoded (req x) in
              let r := set_header "x-user-id" (claim decoded "userId") r in
              let r := set_header "x-user-email" (claim decoded "email") r in
              (Next, Exchange r (sent x) (forwarded x))
          | VerifyThrows _ =>
              (Halt, res_json 403 (envelope "Invalid or expired token") x)
          end
      end
  end.

Definition requestLogger : handler := fun x => (Next, x).

(** *** The synthesized endpoints *)

Definition health : handler := fun x =>
  (Halt, res_json 200
           (VObj [("status", VStr "ok"); ("service", VStr "gateway");
                  ("timestamp", VStr now)]) x).

Definition root : handler := fun x =>
  (Halt, res_json 200
           (VObj [("status", VStr "ok"); ("service", VStr "gateway");
                  ("routes", VArr [VStr "/api/health"; VStr "/api/auth";
                                   VStr "/api/users"; VStr "/api/products"])])
           x).

Definition notFound : handler := fun x =>
  (Halt, res_json 404 (envelope "Route not found") x).

Definition errorHandler (x : exchange) : exchange :=
  res_json 500 (envelope "Internal server error") x.

(** *** [createProxyMiddleware] *)

Record proxy_options : Type := ProxyOptions {
  target : string;
  changeOrigin : bool;
  pathRewrite : list (string * string);
  onError : option (string → exchange → exchange)
}.

(** One [pathRewrite] entry: the key is compiled with [new RegExp(key)], so
    it is case-sensitive. The keys of this gateway are all [^] followed by a
    literal path, which matches exactly the targets starting with it. *)
Definition rewrite_rule (pattern replacement path : string) : option string :=
  match pattern with
  | String "^" literal => String.append replacement <$> strip_prefix literal path
  | _ => None
  end.

(** The first entry that matches rewrites the path. *)
Fixpoint rewritePath (rules : list (string * string)) (path : string) : string :=
  match rules with
  | [] => path
  | (pattern, replacement) :: rest =>
      match rewrite_rule pattern replacement path with
      | Some path' => path'
      | None => rewritePath rest path
      end
  end.

(** The package's own error handler, used when [onError] is not given. *)
Definition defaultErrorHandler (code rewritten : string) (x : exchange) : exchange :=
  let host := match headers (req x) !! "host" with
              | Some (VStr h) => h
              | _ => "undefined"
              end in
  let st := if includes "HPE_INVALID" code then 502
            else if existsb (String.eqb code)
                      ["ECONNRESET"; "ENOTFOUND"; "ECONNREFUSED"; "ETIMEDOUT"]
            then 504 else 500 in
  res_send (Response st (Text ("Error occurred while trying to proxy: "
                               +:+ host +:+ rewritten))) x.

(** The middleware rewrites [req.originalUrl], sends the request with the
    request's method and headers to [target], and relays the answer; when the
    upstream cannot be reached it runs the error handler. When Node refuses
    one of the header values the request cannot be built: the exception is
    passed to [next(err)] and nothing is sent. Otherwise the middleware never
    calls [next()]. [forwarded] records the request whether or not it is
    answered. *)
Definition createProxyMiddleware (o : proxy_options) : handler := fun x =>
  let r := req x in
  if outgoing_ok (headers r) then
    let u := UpstreamRequest (target o) (method r)
               (rewritePath (pathRewrite o) (url r)) (headers r) in
    let x' := Exchange r (sent x) (forwarded x ++ [u]) in
    match upstream u with
    | Replied resp => (Halt, res_send resp x')
    | Failed code =>
        (Halt, match onError o with
               | Some h => h code x'
               | None => defaultErrorHandler code (u_url u) x'
               end)
    end
  else (Throw, x).

(** [onError] of the auth proxy. Its [onProxyReq] and [onProxyRes] write to
    the console; [onProxyReq] also re-sends [req.body] when an earlier
    middleware has parsed one, which none here does. *)
Definition auth_onError (code : string) (x : exchange) : exchange :=
  res_json 503 (envelope "Auth service unavailable") x.

Definition auth_proxy : proxy_options :=
  ProxyOptions (AUTH SERVICES) true [("^/api/auth", "")] (Some auth_onError).

(** The six protected mounts pass [target], [changeOrigin] and [pathRewrite]
    only. *)
Definition users_proxy : proxy_options :=
  ProxyOptions (USER SERVICES) true [("^/api/users", "")] None.
Definition products_proxy : proxy_options :=
  ProxyOptions (PRODUCT SERVICES) true [("^/api/products", "")] None.
Definition providers_proxy : proxy_options :=
  ProxyOptions (PROVIDER SERVICES) true [("^/api/providers", "")] None.
Definition trust_proxy : proxy_options :=
  ProxyOptions (TRUST SERVICES) true [("^/api/trust", "")] None.
Definition messages_proxy : proxy_options :=
  ProxyOptions (MESSAGE SERVICES) true [("^/api/messages", "")] None.
Definition notifications_proxy : proxy_options :=
  ProxyOptions (NOTIFICATION SERVICES) true [("^/api/notifications", "")] None.

(** *** Express routing *)

Inductive layer : Type :=
| Use (stack : list handler)                     (* [app.use(fn, ...)] *)
| Mount (prefix : string) (stack : list handler) (* [app.use(path, fn, ...)] *)
| Get (path : string) (stack : list handler)     (* [app.get(path, fn)] *)
| UseError (h : exchange → exchange).            (* [app.use((err, req, res, next) => ...)] *)

(** [app.use(prefix)]: the path starts with the prefix, in any letter case,
    and the prefix ends at a segment boundary
    ([/^\/api\/users\/?(?=\/|$)/i]). *)
Definition mount_match (prefix path : string) : bool :=
  match strip_prefix_ci prefix path with
  | Some "" => true
  | Some (String c _) => Ascii.eqb c "/"
  | None => false
  end.

(** [app.get(route)]: the whole path is the route, in any letter case, with
    or without one trailing slash ([/^\/api\/health\/?$/i], [/^\/?$/i]). *)
Fixpoint drop_trailing_slash (s : string) : string :=
  match s with
  | "" => ""
  | String c "" => if Ascii.eqb c "/" then "" else s
  | String c s' => String c (drop_trailing_slash s')
  end.

Definition route_match (route path : string) : bool :=
  match strip_prefix_ci (drop_trailing_slash route) path with
  | Some "" | Some "/" => true
  | _ => false
  end.

(** A route registered with [app.get] also answers HEAD. *)
Definition handles_get (m : string) : bool :=
  let name := toLowerCase m in
  (String.eqb name "get" || String.eqb name "head")%bool.

Definition layer_matches (l : layer) (r : request) : bool :=
  match l with
  | Use _ => true
  | Mount prefix _ => mount_match prefix (pathname (url r))
  | Get route _ => (route_match route (pathname (url r)) && handles_get (method r))%bool
  | UseError _ => false
  end.

Definition stack_of (l : layer) : list handler :=
  match l with
  | Use stack | Mount _ stack | Get _ stack => stack
  | UseError _ => []
  end.

(** The handlers of one layer run in order for as long as each calls
    [next()]. *)
Fixpoint run_stack (stack : list handler) (x : exchange) : signal * exchange :=
  match stack with
  | [] => (Next, x)
  | h :: rest =>
      match h x with
      | (Next, x') => run_stack rest x'
      | stop => stop
      end
  end.

(** After a throw, Express skips to the next error-handling middleware. *)
Fixpoint handle_error (layers : list layer) (x : exchange) : exchange :=
  match layers with
  | [] => x
  | UseError h :: _ => h x
  | _ :: rest => handle_error rest x
  end.

(** The layers are tried in order of registration. A request that no layer
    answers is left as it is (Express's final handler would take it; this
    application's last [app.use] answers everything). *)
Fixpoint dispatch (layers : list layer) (x : exchange) : exchange :=
  match layers with
  | [] => x
  | l :: rest =>
      if layer_matches l (req x)
      then match run_stack (stack_of l) x with
           | (Next, x') => dispatch rest x'
           | (Halt, x') => x'
           | (Throw, x') => handle_error rest x'
           end
      else dispatch rest x
  end.

(** *** The application, in order of registration *)

Definition layers : list layer := [
  Use [cors];
  Use [requestLogger];
  Get "/api/health" [health];
  Mount "/api/auth" [createProxyMiddleware auth_proxy];
  Mount "/api/users" [verifyToken; createProxyMiddleware users_proxy];
  Mount "/api/products" [verifyToken; createProxyMiddleware products_proxy];
  Mount "/api/providers" [verifyToken; createProxyMiddleware providers_proxy];
  Mount "/api/trust" [verifyToken; createProxyMiddleware trust_proxy];
  Mount "/api/messages" [verifyToken; createProxyMiddleware messages_proxy];
  Mount "/api/notifications" [verifyToken; createProxyMiddleware notifications_proxy];
  Get "/" [root];
  Use [notFound];
  UseError errorHandler
].

Definition app (i : incoming) : exchange := dispatch layers (start i).

(** *** The route table as the specification speaks of it *)

Definition protected_prefixes : list string :=
  ["/api/users"; "/api/products"; "/api/providers"; "/api/trust";
   "/api/messages"; "/api/notifications"].

Definition route_prefixes : list string := "/api/auth" :: protected_prefixes.

(** The request's path is under one of the six protected mounts. *)
Definition protected_route (i : incoming) : bool :=
  existsb (fun p => mount_match p (pathname (in_url i))) protected_prefixes.

(** The protected mounts with the proxy each one ends in. *)
Definition protected_mounts : list (string * proxy_options) :=
  [("/api/users", users_proxy); ("/api/products", products_proxy);
   ("/api/providers", providers_proxy); ("/api/trust", trust_proxy);
   ("/api/messages", messages_proxy);
   ("/api/notifications", notifications_proxy)].

(** All seven mounts. *)
Definition mounts : list (string * proxy_options) :=
  ("/api/auth", auth_proxy) :: protected_mounts.

Definition is_options (i : incoming) : bool :=
  String.eqb (toUpperCase (in_method i)) "OPTIONS".

(** The request carries the string [t] as the second field of its
    [Authorization] header. *)
Definition carries_token (i : incoming) (t : string) : Prop :=
  ∃ a, in_headers i !! "authorization" = Some a ∧ split " " a !! 1%nat = Some t.

(** The request has no [Authorization] header, or one without a second
    field. *)
Definition lacks_token (i : incoming) : Prop :=
  in_headers i !! "authorization" = None ∨
  ∃ a, in_headers i !! "authorization" = Some a ∧ split " " a !! 1%nat = None.

(** [req.headers.authorization = a] *)
Definition with_authorization (a : string) (x : exchange) : exchange :=
  Exchange (set_header "authorization" (VStr a) (req x)) (sent x) (forwarded x).

Fixpoint no_space (s : string) : bool :=
  match s with
  | "" => true
  | String c s' => (negb (Ascii.eqb c " ") && no_space s')%bool
  end.

(** *** The proxy options of the repository's other copy of the gateway

    There every protected mount has an [onError] of its own. *)
Definition unavailable (message : string) (code : string) (x : exchange) : exchange :=
  res_json 503 (envelope message) x.

Definition legacy_mounts : list (string * proxy_options) :=
  [("/api/users",
    ProxyOptions (USER SERVICES) true [("^/api/users", "")]
      (Some (unavailable "User service unavailable")));
   ("/api/products",
    ProxyOptions (PRODUCT SERVICES) true [("^/api/products", "")]
      (Some (unavailable "Product service unavailable")));
   ("/api/providers",
    ProxyOptions (PROVIDER SERVICES) true [("^/api/providers", "")]
      (Some (unavailable "Provider service unavailable")));
   ("/api/trust",
    ProxyOptions (TRUST SERVICES) true [("^/api/trust", "")]
      (Some (unavailable "Trust service unavailable")));
   ("/api/messages",
    ProxyOptions (MESSAGE SERVICES) true [("^/api/messages", "")]
      (Some (unavailable "Message service unavailable")));
   ("/api/notifications",
    ProxyOptions (NOTIFICATION SERVICES) true [("^/api/notifications", "")]
      (Some (unavailable "Notification service unavailable")))].

(** What a protected mount does with a request: [verifyToken], then the
    proxy if it called [next()]; a throw goes to the error handler. *)
Definition guarded (o : proxy_options) (x : exchange) : exchange :=
  match verifyToken x with
  | (Next, x') =>
      match createProxyMiddleware o x' with
      | (Throw, y) => errorHandler y
      | (_, y) => y
      end
  | (Halt, x') => x'
  | (Throw, x') => errorHandler x'
  end.

(** The request [createProxyMiddleware o] issues for the exchange [x]. *)
Definition proxied (o : proxy_options) (x : exchange) : upstream_request :=
  UpstreamRequest (target o) (method (req x))
    (rewritePath (pathRewrite o) (url (req x))) (headers (req x)).

(** *** The start-up log

    The lines the [app.listen] callback writes. [PORT] is
    [process.env.PORT || 5000] as the template literal prints it;
    [entries] is [Object.entries(SERVICES)], in order of insertion. *)
Definition PORT : string := env_or "PORT" "5000".

Definition entries (s : services) : list (string * string) :=
  [("AUTH", AUTH s); ("USER", USER s); ("PRODUCT", PRODUCT s);
   ("PROVIDER", PROVIDER s); ("TRUST", TRUST s); ("MESSAGE", MESSAGE s);
   ("NOTIFICATION", NOTIFICATION s)].

Definition startup_log : list string :=
  ["[Gateway] listening on http://0.0.0.0:" +:+ PORT;
   "[Gateway] JWT_SECRET=" +:+
     (if String.eqb JWT_SECRET "" then "not set" else "set");
   "[Gateway] NODE_ENV=" +:+ env_or "NODE_ENV" "development";
   "[Gateway] Service mapping:"]
  ++ map (λ e, "  " +:+ e.1 +:+ ": " +:+ e.2) (entries SERVICES).

(** *** [onProxyReq] of the auth proxy *)

(** [JSON.stringify] *)
Variable JSON_stringify : jsval → string.

(** The truth value of a JavaScript value. *)
Definition js_truthy (v : jsval) : bool :=
  match v with
  | VUndefined | VNull => false
  | VBool b => b
  | VNum n => negb (n =? 0)
  | VStr s => negb (String.eqb s "")
  | VArr _ | VObj _ => true
  end.

(** [Object.keys(v).length] as a truth value, for a [v] that is not
    [undefined] or [null]. *)
Definition has_keys (v : jsval) : bool :=
  match v with
  | VStr s => negb (String.eqb s "")
  | VArr items => negb (Nat.eqb (List.length items) 0)
  | VObj props => negb (Nat.eqb (List.length props) 0)
  | _ => false
  end.

Definition getHeader (name : string) (pr : proxy_request) : jsval :=
  default VUndefined (pr_headers pr !! toLowerCase name).

Definition setHeader (name : string) (v : jsval) (pr : proxy_request)
    : proxy_request :=
  ProxyRequest (<[toLowerCase name := v]> (pr_headers pr))
    (pr_written pr) (pr_ended pr).

(** [req_body] is [req.body]. When an earlier middleware has parsed a
    non-empty body, it is written again to the outgoing request. *)
Definition onProxyReq (req_body : jsval) (pr : proxy_request) : proxy_request :=
  if (js_truthy req_body && has_keys req_body)%bool then
    let bodyData := match req_body with
                    | VStr s => s
                    | v => JSON_stringify v
                    end in
    let pr := setHeader "Content-Type"
                (if js_truthy (getHeader "Content-Type" pr)
                 then getHeader "Content-Type" pr
                 else VStr "application/json") pr in
    let pr := setHeader "Content-Length"
                (VNum (Z.of_nat (String.length bodyData))) pr in
    ProxyRequest (pr_headers pr) (pr_written pr ++ [bodyData]) true
  else pr.

(** ** Facts about strings and matching *)

Lemma strip_prefix_ci_comparable p q s :
  is_Some (strip_prefix_ci p s) → is_Some (strip_prefix_ci q s) →
  is_Some (strip_prefix_ci p q) ∨ is_Some (strip_prefix_ci q p).
Proof.
  revert q s. induction p as [|a p IH]; intros q s Hp Hq.
  - left. simpl. eauto.
  - destruct q as [|b q]; [right; simpl; eauto|].
    destruct s as [|c s]; simpl in Hp, Hq; [by destruct Hp|].
    destruct (Ascii.eqb (lower_ascii a) (lower_ascii c)) eqn:Eac; [|by destruct Hp].
    destruct (Ascii.eqb (lower_ascii b) (lower_ascii c)) eqn:Ebc; [|by destruct Hq].
    apply Ascii.eqb_eq in Eac, Ebc. simpl.
    rewrite Eac, Ebc, Ascii.eqb_refl. by apply (IH q s).
Qed.

Lemma mount_match_strip p s :
  mount_match p s = true → is_Some (strip_prefix_ci p s).
Proof. unfold mount_match. destruct (strip_prefix_ci p s); [eauto|done]. Qed.

Lemma route_match_strip r s :
  route_match r s = true → is_Some (strip_prefix_ci (drop_trailing_slash r) s).
Proof.
  unfold route_match. destruct (strip_prefix_ci _ s); [eauto|done].
Qed.

(** Two prefixes neither of which starts with the other never match the same
    path. *)
Lemma mount_match_excl p q s :
  strip_prefix_ci p q = None → strip_prefix_ci q p = None →
  mount_match p s = true → mount_match q s = false.
Proof.
  intros Hpq Hqp Hp. destruct (mount_match q s) eqn:Hq; [|done].
  destruct (strip_prefix_ci_comparable p q s) as [[? E]|[? E]];
    auto using mount_match_strip; congruence.
Qed.

Lemma route_match_excl p r s :
  strip_prefix_ci p (drop_trailing_slash r) = None →
  strip_prefix_ci (drop_trailing_slash r) p = None →
  mount_match p s = true → route_match r s = false.
Proof.
  intros Hpq Hqp Hp. destruct (route_match r s) eqn:Hq; [|done].
  destruct (strip_prefix_ci_comparable p (drop_trailing_slash r) s)
    as [[? E]|[? E]];
    auto using mount_match_strip, route_match_strip; congruence.
Qed.

(** ** Facts about dispatch *)

Lemma dispatch_unmatched l rest x :
  layer_matches l (req x) = false → dispatch (l :: rest) x = dispatch rest x.
Proof. intros H. simpl. by rewrite H. Qed.

Lemma dispatch_next l rest x x' :
  layer_matches l (req x) = true → run_stack (stack_of l) x = (Next, x') →
  dispatch (l :: rest) x = dispatch rest x'.
Proof. intros H R. simpl. by rewrite H, R. Qed.

Lemma dispatch_halt l rest x x' :
  layer_matches l (req x) = true → run_stack (stack_of l) x = (Halt, x') →
  dispatch (l :: rest) x = x'.
Proof. intros H R. simpl. by rewrite H, R. Qed.

Lemma createProxyMiddleware_halts o x :
  outgoing_ok (headers (req x)) = true → (createProxyMiddleware o x).1 = Halt.
Proof.
  intros H. unfold createProxyMiddleware. rewrite H. by destruct (upstream _).
Qed.

Lemma createProxyMiddleware_throws o x :
  outgoing_ok (headers (req x)) = false →
  createProxyMiddleware o x = (Throw, x).
Proof. intros H. unfold createProxyMiddleware. by rewrite H. Qed.

Lemma createProxyMiddleware_not_next o x :
  (createProxyMiddleware o x).1 ≠ Next.
Proof.
  unfold createProxyMiddleware.
  destruct (outgoing_ok _); [|done]. by destruct (upstream _).
Qed.

Lemma proxy_result_halts o x :
  outgoing_ok (headers (req x)) = true →
  match createProxyMiddleware o x with
  | (Throw, y) => errorHandler y
  | (_, y) => y
  end = (createProxyMiddleware o x).2.
Proof.
  intros H. pose proof (createProxyMiddleware_halts o x H) as Hs.
  destruct (createProxyMiddleware o x) as [[] y]; by simpl in *.
Qed.

Lemma proxy_result_throws o x :
  outgoing_ok (headers (req x)) = false →
  match createProxyMiddleware o x with
  | (Throw, y) => errorHandler y
  | (_, y) => y
  end = errorHandler x.
Proof. intros H. by rewrite createProxyMiddleware_throws. Qed.

(** What Node has parsed, Node accepts. *)
Lemma accept_outgoing_ok i : outgoing_ok (headers (accept i)) = true.
Proof.
  unfold outgoing_ok. apply bool_decide_eq_true. cbn [accept headers].
  pose proof (in_legal i) as Hl. apply bool_decide_eq_true in Hl.
  intros k v. rewrite lookup_fmap.
  destruct (in_headers i !! k) as [a|] eqn:Ha; [|done].
  intros [= <-]. exact (Hl k a Ha).
Qed.

(** After [verifyToken] the headers are accepted exactly when the two claim
    values are. *)
Lemma identity_outgoing_ok i decoded :
  outgoing_ok
    (headers (set_header "x-user-email" (claim decoded "email")
                (set_header "x-user-id" (claim decoded "userId")
                   (set_user decoded (accept i)))))
  = (validHeaderValue (claim decoded "userId")
     && validHeaderValue (claim decoded "email"))%bool.
Proof.
  cbn [set_header set_user headers method url user].
  pose proof (accept_outgoing_ok i) as Hb.
  unfold outgoing_ok in *. apply bool_decide_eq_true in Hb.
  destruct (validHeaderValue (claim decoded "userId")) eqn:Hu;
    destruct (validHeaderValue (claim decoded "email")) eqn:He; cbn [andb].
  - apply bool_decide_eq_true. by repeat apply map_Forall_insert_2.
  - apply bool_decide_eq_false. intros H.
    apply map_Forall_insert_1_1 in H. congruence.
  - apply bool_decide_eq_false. intros H.
    pose proof (H "x-user-id" (claim decoded "userId")) as H'.
    rewrite lookup_insert_ne, lookup_insert_eq in H' by done.
    specialize (H' eq_refl). cbn beta in H'. congruence.
  - apply bool_decide_eq_false. intros H.
    apply map_Forall_insert_1_1 in H. congruence.
Qed.

Lemma dispatch_guarded p o rest x :
  mount_match p (pathname (url (req x))) = true →
  (∀ y, handle_error rest y = errorHandler y) →
  dispatch (Mount p [verifyToken; createProxyMiddleware o] :: rest) x
  = guarded o x.
Proof.
  intros H E. unfold guarded.
  cbn [dispatch layer_matches stack_of run_stack]. rewrite H.
  destruct (verifyToken x) as [[] x']; [|done|apply E].
  pose proof (createProxyMiddleware_not_next o x') as Hh.
  destruct (createProxyMiddleware o x') as [[] x'']; [done|done|apply E].
Qed.

Lemma cors_passes x :
  String.eqb (toUpperCase (method (req x))) "OPTIONS" = false →
  cors x = (Next, x).
Proof. intros H. unfold cors. by rewrite H. Qed.

(** A request that is not OPTIONS reaches the routes unchanged. *)
Lemma app_routes i :
  is_options i = false →
  app i = dispatch (drop 2 layers) (start i).
Proof.
  intros H. unfold app, layers.
  rewrite (dispatch_next _ _ _ (start i)); [|done|].
  - by rewrite (dispatch_next _ _ _ (start i)).
  - cbn [stack_of run_stack]. by rewrite cors_passes.
Qed.

Ltac skip_layer H :=
  rewrite dispatch_unmatched;
  [|cbn [layer_matches start req accept url];
    lazymatch type of H with
    | mount_match ?p _ = true =>
        lazymatch goal with
        | |- mount_match ?q ?s = false =>
            exact (mount_match_excl p q s eq_refl eq_refl H)
        | |- context [route_match ?r ?s] =>
            rewrite (route_match_excl p r s eq_refl eq_refl H); reflexivity
        end
    end].

(** On a protected mount the application is [verifyToken] followed by that
    mount's proxy. *)
Lemma app_protected i p o :
  In (p, o) protected_mounts →
  mount_match p (pathname (in_url i)) = true →
  is_options i = false →
  app i = guarded o (start i).
Proof.
  intros Hin Hm Hopt. rewrite app_routes by done.
  cbn [drop layers].
  simpl in Hin.
  repeat (destruct Hin as [[= <- <-]|Hin];
          [repeat skip_layer Hm; by apply dispatch_guarded|]).
  done.
Qed.

(** ** Facts about [verifyToken] *)

Lemma truthy_Some token t :
  truthy token = Some t ↔ token = Some t ∧ t ≠ "".
Proof.
  destruct token as [s|]; cbn.
  - destruct (String.eqb s "") eqn:E.
    + apply String.eqb_eq in E. split; [done|]. by intros [[= ->] Hne].
    + apply String.eqb_neq in E.
      split; [by intros [= ->]|by intros [[= ->] _]].
  - split; [done|by intros [? _]].
Qed.

Lemma bearer_token_accept i :
  bearer_token (accept i)
  = Token (in_headers i !! "authorization" ≫= λ a, split " " a !! 1%nat).
Proof.
  unfold bearer_token, accept. cbn [headers]. rewrite lookup_fmap.
  by destruct (in_headers i !! "authorization").
Qed.

Lemma verifyToken_lacking i :
  lacks_token i →
  verifyToken (start i)
  = (Halt, res_json 401 (envelope "No token provided") (start i)).
Proof.
  intros H. unfold verifyToken. cbn [start req]. rewrite bearer_token_accept.
  destruct H as [->|(a & -> & E)]; [done|]. cbn. by rewrite E.
Qed.

Lemma verifyToken_carrying i t :
  carries_token i t → t ≠ "" →
  verifyToken (start i)
  = match jwt_verify t JWT_SECRET with
    | Verified decoded =>
        (Next,
         Exchange
           (set_header "x-user-email" (claim decoded "email")
              (set_header "x-user-id" (claim decoded "userId")
                 (set_user decoded (accept i)))) [] [])
    | VerifyThrows _ =>
        (Halt, res_json 403 (envelope "Invalid or expired token") (start i))
    end.
Proof.
  intros (a & Ha & E) Ht. unfold verifyToken. cbn [start req].
  rewrite bearer_token_accept, Ha. cbn [mbind option_bind]. rewrite E.
  by rewrite (proj2 (truthy_Some (Some t) t)).
Qed.

Lemma protected_route_mount i :
  protected_route i = true →
  ∃ p o, In (p, o) protected_mounts ∧ mount_match p (pathname (in_url i)) = true.
Proof.
  unfold protected_route, protected_prefixes, protected_mounts.
  cbn [existsb]. intros H.
  repeat (apply orb_prop in H as [H|H];
          [eexists _, _; split; [|exact H]; cbn; tauto|]).
  done.
Qed.

(** None of the protected mounts is given an [onError]. *)
Lemma protected_mounts_onError p o :
  In (p, o) protected_mounts → onError o = None.
Proof.
  simpl. intros Hin.
  repeat (destruct Hin as [[= <- <-]|Hin]; [done|]). done.
Qed.

(** ** Properties of the specification *)

(** C1 (as amended). A request that is not a CORS preflight, goes to a
    protected route and has no Authorization header, or one without a second
    space-separated field, is answered 401 with
    [{ success: false, error: 'No token provided' }] and nothing is sent to
    any upstream. *)
Theorem C1_missing_token_401 i :
  protected_route i = true → is_options i = false → lacks_token i →
  sent (app i) = [Response 401 (Json (envelope "No token provided"))] ∧
  forwarded (app i) = [].
Proof.
  intros Hp Ho Hl. destruct (protected_route_mount i Hp) as (p & o & Hin & Hm).
  rewrite (app_protected i p o) by done.
  unfold guarded. by rewrite verifyToken_lacking.
Qed.

(** C2 (as amended). Two requests that are not CORS preflights, go to
    protected routes and carry tokens that [jwt.verify] rejects, whatever the
    two reasons (a signature under another secret, a passed expiry), are both
    answered 403 with the same body
    [{ success: false, error: 'Invalid or expired token' }]. *)
Theorem C2_rejections_indistinguishable i1 i2 t1 t2 e1 e2 :
  protected_route i1 = true → is_options i1 = false →
  protected_route i2 = true → is_options i2 = false →
  carries_token i1 t1 → t1 ≠ "" → jwt_verify t1 JWT_SECRET = VerifyThrows e1 →
  carries_token i2 t2 → t2 ≠ "" → jwt_verify t2 JWT_SECRET = VerifyThrows e2 →
  sent (app i1) = [Response 403 (Json (envelope "Invalid or expired token"))] ∧
  sent (app i2) = sent (app i1).
Proof.
  intros Hp1 Ho1 Hp2 Ho2 Hc1 Hn1 Hv1 Hc2 Hn2 Hv2.
  destruct (protected_route_mount i1 Hp1) as (p1 & o1 & Hin1 & Hm1).
  destruct (protected_route_mount i2 Hp2) as (p2 & o2 & Hin2 & Hm2).
  rewrite (app_protected i1 p1 o1), (app_protected i2 p2 o2) by done.
  unfold guarded.
  rewrite (verifyToken_carrying i1 t1), (verifyToken_carrying i2 t2) by done.
  by rewrite Hv1, Hv2.
Qed.


(** The public mount is the proxy alone. *)
Lemma app_auth i :
  mount_match "/api/auth" (pathname (in_url i)) = true →
  is_options i = false →
  app i = (createProxyMiddleware auth_proxy (start i)).2.
Proof.
  intros Hm Ho. rewrite app_routes by done. cbn [drop layers].
  skip_layer Hm.
  cbn [dispatch layer_matches stack_of run_stack start req accept url].
  rewrite Hm.
  pose proof (createProxyMiddleware_halts auth_proxy (Exchange (accept i) [] [])
                (accept_outgoing_ok i)) as Hh.
  destruct (createProxyMiddleware auth_proxy _) as [sg y]. simpl in Hh. by subst.
Qed.

(** X14. When the auth service cannot be reached, a request under
    [/api/auth] that is not a preflight is answered 503
    [{ success: false, error: 'Auth service unavailable' }], whatever the
    error code. *)
Lemma auth_unreachable_503 i :
  mount_match "/api/auth" (pathname (in_url i)) = true →
  is_options i = false →
  (∀ u, u_target u = AUTH SERVICES → ∃ code, upstream u = Failed code) →
  sent (app i) = [Response 503 (Json (envelope "Auth service unavailable"))].
Proof.
  intros Hm Ho Hdown. rewrite app_auth by done.
  unfold createProxyMiddleware. cbn [start req]. rewrite accept_outgoing_ok.
  change (accept i) with (req (start i)).
  destruct (Hdown (UpstreamRequest (target auth_proxy) (method (req (start i)))
                     (rewritePath (pathRewrite auth_proxy) (url (req (start i))))
                     (headers (req (start i)))) eq_refl) as [code ->].
  done.
Qed.

(** The protected mounts have no [onError], so an unreachable backend is
    reported by the proxy package's own handler, 502, 504 or 500 with a text
    body, never the 503 envelope. *)
Lemma protected_unreachable_default i t decoded :
  protected_route i = true → is_options i = false →
  carries_token i t → t ≠ "" → jwt_verify t JWT_SECRET = Verified decoded →
  validHeaderValue (claim decoded "userId") = true →
  validHeaderValue (claim decoded "email") = true →
  (∀ u, ∃ code, upstream u = Failed code) →
  ∃ st text, sent (app i) = [Response st (Text text)] ∧
             (st = 502 ∨ st = 504 ∨ st = 500).
Proof.
  intros Hp Ho Hc Hn Hv Hu He Hdown.
  destruct (protected_route_mount i Hp) as (p & o & Hin & Hm).
  rewrite (app_protected i p o) by done.
  unfold guarded. rewrite (verifyToken_carrying i t), Hv by done.
  unfold createProxyMiddleware. cbn [req sent forwarded].
  rewrite identity_outgoing_ok, Hu, He. cbn [andb].
  set (u0 := UpstreamRequest _ _ _ _).
  destruct (Hdown u0) as [code ->].
  rewrite (protected_mounts_onError p o) by done.
  unfold defaultErrorHandler, res_send. cbn [sent app_nil_l].
  eexists _, _. split; [reflexivity|].
  destruct (includes _ _); [auto|]. destruct (existsb _ _); auto.
Qed.

(** X15. In the other copy of the gateway each protected proxy has an
    [onError] of its own: when its backend cannot be reached it sends the
    request once and answers 503 with the envelope that names the service of
    its own mount, [User] for [/api/users] and so on. *)
Theorem legacy_unreachable_503 p o x code :
  In (p, o) legacy_mounts → outgoing_ok (headers (req x)) = true →
  upstream (proxied o x) = Failed code →
  ∃ service,
    In (p, service)
       [("/api/users", "User"); ("/api/products", "Product");
        ("/api/providers", "Provider"); ("/api/trust", "Trust");
        ("/api/messages", "Message"); ("/api/notifications", "Notification")] ∧
    createProxyMiddleware o x
    = (Halt,
       Exchange (req x)
         (sent x ++
          [Response 503 (Json (envelope (service +:+ " service unavailable")))])
         (forwarded x ++ [proxied o x])).
Proof.
  intros Hin Hok Hf. unfold createProxyMiddleware. fold (proxied o x).
  rewrite Hok, Hf. simpl in Hin.
  destruct Hin as [[= <- <-]|Hin];
    [exists "User"; split; [cbn; tauto|done]|].
  destruct Hin as [[= <- <-]|Hin];
    [exists "Product"; split; [cbn; tauto|done]|].
  destruct Hin as [[= <- <-]|Hin];
    [exists "Provider"; split; [cbn; tauto|done]|].
  destruct Hin as [[= <- <-]|Hin];
    [exists "Trust"; split; [cbn; tauto|done]|].
  destruct Hin as [[= <- <-]|Hin];
    [exists "Message"; split; [cbn; tauto|done]|].
  destruct Hin as [[= <- <-]|Hin];
    [exists "Notification"; split; [cbn; tauto|done]|].
  done.
Qed.



(** The case the rewrite rule covers: when the request target starts with
    the mount's prefix exactly as it is registered, the proxy sends the rest
    of the target, query string included, with the request's method. *)
Lemma proxy_strips_prefix p o x rest :
  In (p, o) mounts → url (req x) = p +:+ rest →
  outgoing_ok (headers (req x)) = true →
  forwarded (createProxyMiddleware o x).2
  = (forwarded x ++
     [UpstreamRequest (target o) (method (req x)) rest (headers (req x))])%list.
Proof.
  intros Hin Hurl Hok.
  assert (rewritePath (pathRewrite o) (url (req x)) = rest) as Hre.
  { rewrite Hurl. simpl in Hin.
    repeat (destruct Hin as [[= <- <-]|Hin]; [lazy; reflexivity|]). done. }
  unfold createProxyMiddleware. rewrite Hok, Hre.
  destruct (upstream _); [done|]. cbn [snd].
  simpl in Hin.
  repeat (destruct Hin as [[= <- <-]|Hin]; [reflexivity|]). done.
Qed.

(** On the public route the whole application does so. *)
Lemma auth_forwards_stripped i rest :
  in_url i = "/api/auth" +:+ rest →
  mount_match "/api/auth" (pathname (in_url i)) = true →
  is_options i = false →
  forwarded (app i)
  = [UpstreamRequest (AUTH SERVICES) (in_method i) rest (VStr <$> in_headers i)].
Proof.
  intros Hurl Hm Ho. rewrite app_auth by done.
  by rewrite (proxy_strips_prefix "/api/auth" auth_proxy (start i) rest)
    by (done || (left; reflexivity) || apply accept_outgoing_ok).
Qed.

(** And on a protected route, once the token has verified. *)
Lemma protected_forwards_stripped i p o rest t decoded :
  In (p, o) protected_mounts → in_url i = p +:+ rest →
  mount_match p (pathname (in_url i)) = true → is_options i = false →
  carries_token i t → t ≠ "" → jwt_verify t JWT_SECRET = Verified decoded →
  validHeaderValue (claim decoded "userId") = true →
  validHeaderValue (claim decoded "email") = true →
  forwarded (app i)
  = [UpstreamRequest (target o) (in_method i) rest
       (<["x-user-email" := claim decoded "email"]>
          (<["x-user-id" := claim decoded "userId"]> (VStr <$> in_headers i)))].
Proof.
  intros Hin Hurl Hm Ho Hc Hn Hv Hu He. rewrite (app_protected i p o) by done.
  unfold guarded. rewrite (verifyToken_carrying i t), Hv by done.
  assert (outgoing_ok
            (headers (set_header "x-user-email" (claim decoded "email")
                        (set_header "x-user-id" (claim decoded "userId")
                           (set_user decoded (accept i))))) = true) as Hok
    by by rewrite identity_outgoing_ok, Hu, He.
  rewrite proxy_result_halts by exact Hok.
  by rewrite (proxy_strips_prefix p o _ rest) by (done || by right).
Qed.


Lemma split_scheme s t :
  no_space s = true → split " " (s +:+ " " +:+ t) = s :: split " " t.
Proof.
  induction s as [|c s IH]; [done|].
  change (String c s +:+ " " +:+ t) with (String c (s +:+ " " +:+ t)).
  cbn [no_space split].
  intros [Hc Hs]%andb_prop. apply negb_true_iff in Hc. rewrite Hc.
  by rewrite (IH Hs).
Qed.

Lemma bearer_token_with_authorization a x :
  bearer_token (req (with_authorization a x)) = Token (split " " a !! 1%nat).
Proof.
  unfold bearer_token. cbn [with_authorization req set_header headers].
  by rewrite lookup_insert_eq.
Qed.

Lemma with_authorization_twice a b x :
  with_authorization b (with_authorization a x) = with_authorization b x.
Proof.
  unfold with_authorization, set_header. cbn [req sent forwarded headers method url user].
  by rewrite insert_insert_eq.
Qed.

Lemma split_no_space t : no_space t = true → split " " t = [t].
Proof.
  induction t as [|c t IH]; [done|]. cbn [no_space split].
  intros [Hc Ht]%andb_prop. apply negb_true_iff in Hc. rewrite Hc.
  by rewrite (IH Ht).
Qed.

(** What [verifyToken] does with the header value [a]: the word handed to
    [jwt.verify] is the second space-separated field of [a], and the outcome
    is decided by that call alone. *)
Lemma verifyToken_with_authorization a x :
  verifyToken (with_authorization a x)
  = match truthy (split " " a !! 1%nat) with
    | None => (Halt, res_json 401 (envelope "No token provided")
                       (with_authorization a x))
    | Some tok =>
        match jwt_verify tok JWT_SECRET with
        | Verified decoded =>
            (Next, Exchange
                     (set_header "x-user-email" (claim decoded "email")
                        (set_header "x-user-id" (claim decoded "userId")
                           (set_user decoded (req (with_authorization a x)))))
                     (sent x) (forwarded x))
        | VerifyThrows _ =>
            (Halt, res_json 403 (envelope "Invalid or expired token")
                     (with_authorization a x))
        end
    end.
Proof.
  unfold verifyToken. rewrite bearer_token_with_authorization.
  destruct (truthy _); [|done]. by destruct (jwt_verify _ _).
Qed.

(** C9. The scheme word is not looked at: with any word [s] free of spaces
    in place of [Bearer], [verifyToken] hands over control the same way and
    leaves the same exchange, up to the Authorization header itself; the
    token it uses is the second space-separated field of the header.  That
    field is what [verifyToken] passes to [jwt.verify], whatever the header
    value, and the result of that call decides between 403 and [next()];
    for the header [s t] the field is [t] up to its first space, so [t]
    itself when [t] has no space. *)
Theorem C9_scheme_word_ignored x s t :
  no_space s = true →
  bearer_token (req (with_authorization (s +:+ " " +:+ t) x))
  = bearer_token (req (with_authorization ("Bearer " +:+ t) x)) ∧
  bearer_token (req (with_authorization (s +:+ " " +:+ t) x))
  = Token (split " " (s +:+ " " +:+ t) !! 1%nat) ∧
  verifyToken (with_authorization (s +:+ " " +:+ t) x)
  = (let (sg, y) := verifyToken (with_authorization ("Bearer " +:+ t) x) in
     (sg, with_authorization (s +:+ " " +:+ t) y)) ∧
  (∀ a, verifyToken (with_authorization a x)
        = match truthy (split " " a !! 1%nat) with
          | None => (Halt, res_json 401 (envelope "No token provided")
                             (with_authorization a x))
          | Some tok =>
              match jwt_verify tok JWT_SECRET with
              | Verified decoded =>
                  (Next, Exchange
                           (set_header "x-user-email" (claim decoded "email")
                              (set_header "x-user-id" (claim decoded "userId")
                                 (set_user decoded
                                    (req (with_authorization a x)))))
                           (sent x) (forwarded x))
              | VerifyThrows _ =>
                  (Halt, res_json 403 (envelope "Invalid or expired token")
                           (with_authorization a x))
              end
          end) ∧
  split " " (s +:+ " " +:+ t) !! 1%nat = split " " t !! 0%nat ∧
  (no_space t = true → split " " (s +:+ " " +:+ t) !! 1%nat = Some t).
Proof.
  intros Hs.
  assert (bearer_token (req (with_authorization (s +:+ " " +:+ t) x))
          = bearer_token (req (with_authorization ("Bearer " +:+ t) x))) as Hb.
  { rewrite !bearer_token_with_authorization.
    change ("Bearer " +:+ t) with ("Bearer" +:+ " " +:+ t).
    rewrite (split_scheme s t Hs). by rewrite (split_scheme "Bearer" t eq_refl). }
  split; [exact Hb|]. split; [apply bearer_token_with_authorization|].
  split; [|split; [intros a; apply verifyToken_with_authorization|]].
  - unfold verifyToken. rewrite Hb, bearer_token_with_authorization.
    destruct (truthy _).
    + destruct (jwt_verify _ _).
      * unfold with_authorization, set_header, set_user.
        cbn [req sent forwarded headers method url user].
        do 2 f_equal. f_equal.
        rewrite (insert_insert_ne _ "authorization" "x-user-email") by done.
        rewrite (insert_insert_ne _ "authorization" "x-user-id") by done.
        by rewrite insert_insert_eq.
      * unfold res_json, with_authorization, set_header.
        cbn [req sent forwarded headers method url user].
        by rewrite insert_insert_eq.
    + unfold res_json, with_authorization, set_header.
      cbn [req sent forwarded headers method url user].
      by rewrite insert_insert_eq.
  - rewrite (split_scheme s t Hs). split; [done|].
    intros Ht. by rewrite (split_no_space t Ht).
Qed.

(** C10. When [verifyToken] returns without calling [next()] it has written
    exactly one response, the 401 or the 403 envelope; the request object is
    as it was (no identity header set, no user attached), nothing was sent
    upstream, and no later handler of the stack runs. *)
Theorem C10_failure_leaves_request x x' :
  verifyToken x = (Halt, x') →
  req x' = req x ∧ forwarded x' = forwarded x ∧
  (∃ r, sent x' = (sent x ++ [r])%list ∧
        (r = Response 401 (Json (envelope "No token provided")) ∨
         r = Response 403 (Json (envelope "Invalid or expired token")))) ∧
  (∀ rest, run_stack (verifyToken :: rest) x = (Halt, x')).
Proof.
  intros H. split_and!.
  - revert H. unfold verifyToken.
    destruct (bearer_token (req x)) as [|token]; [done|].
    destruct (truthy token); [|by intros [= <-]].
    destruct (jwt_verify _ _); [done|by intros [= <-]].
  - revert H. unfold verifyToken.
    destruct (bearer_token (req x)) as [|token]; [done|].
    destruct (truthy token); [|by intros [= <-]].
    destruct (jwt_verify _ _); [done|by intros [= <-]].
  - revert H. unfold verifyToken.
    destruct (bearer_token (req x)) as [|token]; [done|].
    destruct (truthy token); [|intros [= <-]; eauto].
    destruct (jwt_verify _ _); [done|intros [= <-]; eauto].
  - intros rest. cbn [run_stack]. by rewrite H.
Qed.

(** Conversely, when it does call [next()], or throws, it has written
    nothing. *)
Lemma verifyToken_silent_otherwise x sg x' :
  verifyToken x = (sg, x') → sg ≠ Halt → sent x' = sent x.
Proof.
  unfold verifyToken.
  destruct (bearer_token (req x)) as [|token]; [by intros [= <- <-]|].
  destruct (truthy token); [|by intros [= <- <-]].
  destruct (jwt_verify _ _); by intros [= <- <-].
Qed.

(** ** How a request is resolved *)

(** A CORS preflight stops at [cors()]. *)
Lemma app_preflight i :
  is_options i = true → app i = res_send (Response 204 NoBody) (start i).
Proof.
  intros Ho. unfold app, layers.
  cbn [dispatch layer_matches stack_of run_stack]. unfold cors.
  unfold is_options in Ho. cbn [start req accept method]. by rewrite Ho.
Qed.

(** Every request takes exactly one of six ways through the application. *)
Lemma app_cases i :
  (is_options i = true ∧ app i = res_send (Response 204 NoBody) (start i)) ∨
  (is_options i = false ∧
   ((route_match "/api/health" (pathname (in_url i)) && handles_get (in_method i)
     = true ∧ app i = (health (start i)).2) ∨
    (mount_match "/api/auth" (pathname (in_url i)) = true ∧
     app i = (createProxyMiddleware auth_proxy (start i)).2) ∨
    (∃ p o, In (p, o) protected_mounts ∧
            mount_match p (pathname (in_url i)) = true ∧
            app i = guarded o (start i)) ∨
    (route_match "/" (pathname (in_url i)) && handles_get (in_method i) = true ∧
     app i = (root (start i)).2) ∨
    ((∀ p, In p route_prefixes → mount_match p (pathname (in_url i)) = false) ∧
     app i = (notFound (start i)).2))).
Proof.
  destruct (is_options i) eqn:Ho; [left; auto using app_preflight|].
  right. split; [done|]. rewrite app_routes by done. cbn [drop layers].
  destruct (route_match "/api/health" (pathname (in_url i)) &&
            handles_get (in_method i)) eqn:Hh.
  { left. split; [done|]. by rewrite (dispatch_halt _ _ _ (health (start i)).2). }
  rewrite dispatch_unmatched by exact Hh. right.
  destruct (mount_match "/api/auth" (pathname (in_url i))) eqn:Ha.
  { left. split; [done|].
    cbn [dispatch layer_matches stack_of run_stack start req accept url].
    rewrite Ha.
    pose proof (createProxyMiddleware_halts auth_proxy (Exchange (accept i) [] [])
                  (accept_outgoing_ok i)) as Hs.
    destruct (createProxyMiddleware auth_proxy _) as [sg y]. simpl in Hs. by subst. }
  rewrite dispatch_unmatched by exact Ha. right.
  destruct (mount_match "/api/users" (pathname (in_url i))) eqn:H1.
  { left. eexists _, _. split; [left; reflexivity|]. split; [exact H1|].
    by apply dispatch_guarded. }
  rewrite dispatch_unmatched by exact H1.
  destruct (mount_match "/api/products" (pathname (in_url i))) eqn:H2.
  { left. eexists _, _. split; [right; left; reflexivity|]. split; [exact H2|].
    by apply dispatch_guarded. }
  rewrite dispatch_unmatched by exact H2.
  destruct (mount_match "/api/providers" (pathname (in_url i))) eqn:H3.
  { left. eexists _, _. split; [do 2 right; left; reflexivity|].
    split; [exact H3|]. by apply dispatch_guarded. }
  rewrite dispatch_unmatched by exact H3.
  destruct (mount_match "/api/trust" (pathname (in_url i))) eqn:H4.
  { left. eexists _, _. split; [do 3 right; left; reflexivity|].
    split; [exact H4|]. by apply dispatch_guarded. }
  rewrite dispatch_unmatched by exact H4.
  destruct (mount_match "/api/messages" (pathname (in_url i))) eqn:H5.
  { left. eexists _, _. split; [do 4 right; left; reflexivity|].
    split; [exact H5|]. by apply dispatch_guarded. }
  rewrite dispatch_unmatched by exact H5.
  destruct (mount_match "/api/notifications" (pathname (in_url i))) eqn:H6.
  { left. eexists _, _. split; [do 5 right; left; reflexivity|].
    split; [exact H6|]. by apply dispatch_guarded. }
  rewrite dispatch_unmatched by exact H6. right.
  destruct (route_match "/" (pathname (in_url i)) && handles_get (in_method i))
    eqn:Hr.
  { left. split; [done|]. by rewrite (dispatch_halt _ _ _ (root (start i)).2). }
  rewrite dispatch_unmatched by exact Hr. right. split.
  - unfold route_prefixes, protected_prefixes. simpl In. intros p Hp.
    repeat (destruct Hp as [<-|Hp]; [assumption|]). destruct Hp.
  - by rewrite (dispatch_halt _ _ _ (notFound (start i)).2).
Qed.

(** What a proxy of the route table leaves behind: the request it issued and
    one response, which is the upstream's whenever the upstream replied. *)
Lemma proxy_outcome p o x :
  In (p, o) mounts → outgoing_ok (headers (req x)) = true →
  ∃ r, (createProxyMiddleware o x).2
       = Exchange (req x) (sent x ++ [r]) (forwarded x ++ [proxied o x]) ∧
       (∀ r', upstream (proxied o x) = Replied r' → r = r').
Proof.
  intros Hin Hok. unfold createProxyMiddleware. fold (proxied o x).
  rewrite Hok. destruct (upstream (proxied o x)) as [resp|code].
  - exists resp. split; [done|]. by intros r' [= ->].
  - simpl in Hin.
    repeat (destruct Hin as [[= <- <-]|Hin];
            [eexists; split; [reflexivity|done]|]).
    done.
Qed.

(** The three ways [verifyToken] deals with a request as Node delivers it. *)
Lemma verifyToken_start i :
  (verifyToken (start i)
   = (Halt, res_json 401 (envelope "No token provided") (start i))) ∨
  (∃ t, carries_token i t ∧ t ≠ "" ∧
        ((∃ e, jwt_verify t JWT_SECRET = VerifyThrows e) ∧
         verifyToken (start i)
         = (Halt, res_json 403 (envelope "Invalid or expired token") (start i))
         ∨
         ∃ decoded,
           jwt_verify t JWT_SECRET = Verified decoded ∧
           verifyToken (start i)
           = (Next,
              Exchange
                (set_header "x-user-email" (claim decoded "email")
                   (set_header "x-user-id" (claim decoded "userId")
                      (set_user decoded (accept i)))) [] []))).
Proof.
  destruct (in_headers i !! "authorization") as [a|] eqn:Ha.
  - destruct (split " " a !! 1%nat) as [t|] eqn:Et.
    + destruct (String.eqb t "") eqn:E.
      * apply String.eqb_eq in E as ->. left.
        unfold verifyToken. cbn [start req]. rewrite bearer_token_accept, Ha.
        cbn [mbind option_bind]. by rewrite Et.
      * apply String.eqb_neq in E. right. exists t.
        assert (carries_token i t) as Hc by (exists a; done).
        split; [done|]. split; [done|].
        rewrite (verifyToken_carrying i t) by done.
        destruct (jwt_verify t JWT_SECRET) as [decoded|e]; eauto.
    + left. apply verifyToken_lacking. right. eauto.
  - left. apply verifyToken_lacking. by left.
Qed.

(** The four ways a protected mount deals with a request: the two
    rejections of [verifyToken], the proxy's work when the token verifies
    and its claims fit in a header, the 500 handler when they do not. *)
Lemma guarded_start i p o :
  In (p, o) protected_mounts →
  guarded o (start i) = res_json 401 (envelope "No token provided") (start i) ∨
  ∃ t, carries_token i t ∧ t ≠ "" ∧
    ((∃ e, jwt_verify t JWT_SECRET = VerifyThrows e) ∧
     guarded o (start i)
     = res_json 403 (envelope "Invalid or expired token") (start i)
     ∨
     ∃ decoded y,
       jwt_verify t JWT_SECRET = Verified decoded ∧
       y = Exchange
             (set_header "x-user-email" (claim decoded "email")
                (set_header "x-user-id" (claim decoded "userId")
                   (set_user decoded (accept i)))) [] [] ∧
       ((validHeaderValue (claim decoded "userId")
         && validHeaderValue (claim decoded "email") = true)%bool ∧
        (∃ r, guarded o (start i) = Exchange (req y) [r] [proxied o y] ∧
              ∀ r', upstream (proxied o y) = Replied r' → r = r')
        ∨
        (validHeaderValue (claim decoded "userId")
         && validHeaderValue (claim decoded "email") = false)%bool ∧
        guarded o (start i) = errorHandler y)).
Proof.
  intros Hin. unfold guarded.
  destruct (verifyToken_start i)
    as [->|(t & Hc & Hn & [[He ->]|(decoded & Hv & ->)])]; [by left| |].
  { right. exists t. split_and!; [done|done|]. by left. }
  right. exists t. split_and!; [done|done|]. right.
  eexists decoded, _. split; [done|]. split; [reflexivity|].
  pose proof (identity_outgoing_ok i decoded) as Hid.
  destruct (validHeaderValue (claim decoded "userId")
            && validHeaderValue (claim decoded "email"))%bool.
  - left. split; [done|]. rewrite proxy_result_halts by exact Hid.
    match goal with
    | |- context [createProxyMiddleware o ?x] =>
        destruct (proxy_outcome p o x) as (r & -> & Hr);
          [by right|exact Hid|]
    end.
    by exists r.
  - right. split; [done|]. by rewrite proxy_result_throws by exact Hid.
Qed.



(** The shape of every request the gateway sends upstream. *)
Lemma forwarded_shape i u :
  In u (forwarded (app i)) →
  ∃ p o, In (p, o) mounts ∧ mount_match p (pathname (in_url i)) = true ∧
         u_target u = target o ∧ u_method u = in_method i ∧
         u_url u = rewritePath (pathRewrite o) (in_url i) ∧
         (∀ k, k ≠ "x-user-id" → k ≠ "x-user-email" →
               u_headers u !! k = VStr <$> in_headers i !! k).
Proof.
  destruct (app_cases i) as [[_ ->]|[_ [[_ ->]|[[Ha ->]|[(p & o & Hin & Hm & ->)|
                                   [[_ ->]|[_ ->]]]]]]]; try done.
  - destruct (proxy_outcome "/api/auth" auth_proxy (start i)) as (r & -> & _);
      [by left|apply accept_outgoing_ok|].
    intros [<-|[]]. exists "/api/auth", auth_proxy.
    split_and!; try done; [by left|].
    intros k _ _. cbn. by rewrite lookup_fmap.
  - destruct (guarded_start i p o Hin)
      as [->|(t & Hc & Hn & [[He ->]|(decoded & y & Hv & Hy &
              [[Hok (r & -> & Hr)]|[Hbad ->]])])]; try subst y; try done.
    intros [<-|[]]. exists p, o. split_and!; try done; [by right|].
    intros k Hid Hem. cbn.
    rewrite !lookup_insert_ne by done. by rewrite lookup_fmap.
Qed.

(** ** Further properties of the pipeline *)


(** X2. Every request gets exactly one response, and at most one request is
    sent upstream for it. *)
Theorem app_answers_once i :
  (∃ r, sent (app i) = [r]) ∧ (List.length (forwarded (app i)) ≤ 1)%nat.
Proof.
  destruct (app_cases i) as [[_ ->]|[_ [[_ ->]|[[Ha ->]|[(p & o & Hin & Hm & ->)|
                                   [[_ ->]|[_ ->]]]]]]];
    try (split; [eexists; reflexivity|cbn; lia]).
  - destruct (proxy_outcome "/api/auth" auth_proxy (start i)) as (r & -> & _);
      [by left|apply accept_outgoing_ok|].
    split; [by exists r|cbn; lia].
  - destruct (guarded_start i p o Hin)
      as [->|(t & Hc & Hn & [[He ->]|(decoded & y & Hv & Hy &
              [[Hok (r & -> & Hr)]|[Hbad ->]])])];
      try subst y; split; try (eexists; reflexivity); cbn; lia.
Qed.

(** X3. Nothing is sent upstream for a request to a protected route unless
    the request carries a non-empty token that [jwt.verify] accepts under the
    gateway's secret. *)
Theorem protected_forward_requires_token i :
  protected_route i = true → forwarded (app i) ≠ [] →
  ∃ t decoded, carries_token i t ∧ t ≠ "" ∧
               jwt_verify t JWT_SECRET = Verified decoded.
Proof.
  intros Hp Hf. destruct (is_options i) eqn:Ho.
  { by rewrite app_preflight in Hf. }
  destruct (protected_route_mount i Hp) as (p & o & Hin & Hm).
  rewrite (app_protected i p o) in Hf by done.
  destruct (guarded_start i p o Hin)
    as [E|(t & Hc & Hn & [[He E]|(decoded & y & Hv & Hy & _)])];
    [by rewrite E in Hf|by rewrite E in Hf|].
  by exists t, decoded.
Qed.

(** X21. A request to a protected route for which nothing is sent upstream
    is answered in one of four ways: 204 (a preflight), the 401 envelope,
    the 403 envelope, or the 500 envelope, the last only when the token
    verified but its [userId] or [email] claim is not a value Node accepts
    in a header ([undefined] when the claim is missing). [verifyToken]
    itself never throws, and the 404 handler never answers such a
    request. *)
Theorem protected_rejections i :
  protected_route i = true → forwarded (app i) = [] →
  (verifyToken (start i)).1 ≠ Throw ∧
  (sent (app i) = [Response 204 NoBody] ∨
   sent (app i) = [Response 401 (Json (envelope "No token provided"))] ∨
   sent (app i) = [Response 403 (Json (envelope "Invalid or expired token"))] ∨
   sent (app i) = [Response 500 (Json (envelope "Internal server error"))] ∧
   ∃ t decoded,
     carries_token i t ∧ t ≠ "" ∧
     jwt_verify t JWT_SECRET = Verified decoded ∧
     (validHeaderValue (claim decoded "userId")
      && validHeaderValue (claim decoded "email") = false)%bool).
Proof.
  intros Hp Hf. split.
  { by destruct (verifyToken_start i)
      as [->|(t & Hc & Hn & [[_ ->]|(decoded & Hv & ->)])]. }
  destruct (is_options i) eqn:Ho.
  { left. by rewrite app_preflight. }
  right. destruct (protected_route_mount i Hp) as (p & o & Hin & Hm).
  rewrite (app_protected i p o) in Hf |- * by done.
  destruct (guarded_start i p o Hin)
    as [E|(t & Hc & Hn & [[He E]|(decoded & y & Hv & Hy &
            [[Hok (r & E & Hr)]|[Hbad E]])])]; rewrite E in Hf |- *.
  - by left.
  - right. by left.
  - done.
  - right. right. subst y. split; [done|]. by exists t, decoded.
Qed.

(** X4. On the public route no token is looked at: a request under
    [/api/auth] that is not a preflight is sent to the auth service once,
    [req.headers] reaches the proxy exactly as the client sent it (an
    [x-user-id] of the client's included) and no user is attached. *)
Theorem auth_route_unchecked i :
  mount_match "/api/auth" (pathname (in_url i)) = true → is_options i = false →
  forwarded (app i)
  = [UpstreamRequest (AUTH SERVICES) (in_method i)
       (rewritePath [("^/api/auth", "")] (in_url i)) (VStr <$> in_headers i)] ∧
  user (req (app i)) = None.
Proof.
  intros Hm Ho. rewrite app_auth by done.
  by destruct (proxy_outcome "/api/auth" auth_proxy (start i)) as (r & -> & _);
    [by left|apply accept_outgoing_ok|].
Qed.

(** X5. When the upstream replies to the request the gateway sent it, the
    client receives that reply, status and body, and nothing else. *)
Theorem upstream_reply_relayed i u r :
  In u (forwarded (app i)) → upstream u = Replied r → sent (app i) = [r].
Proof.
  destruct (app_cases i) as [[_ ->]|[_ [[_ ->]|[[Ha ->]|[(p & o & Hin & Hm & ->)|
                                   [[_ ->]|[_ ->]]]]]]]; try done.
  - destruct (proxy_outcome "/api/auth" auth_proxy (start i)) as (r0 & -> & Hr);
      [by left|apply accept_outgoing_ok|].
    intros [<-|[]] Hu. by rewrite (Hr r Hu).
  - destruct (guarded_start i p o Hin)
      as [->|(t & Hc & Hn & [[He ->]|(decoded & y & Hv & Hy &
              [[Hok (r0 & -> & Hr)]|[Hbad ->]])])]; try subst y; try done.
    intros [<-|[]] Hu. by rewrite (Hr r Hu).
Qed.


(** X7. Every request sent upstream has the method of the inbound request,
    and the gateway hands the proxy every header of the inbound request
    unchanged except [x-user-id] and [x-user-email]; the Authorization
    header in particular is passed on. ([host] is left out of the statement:
    with [changeOrigin] the proxy itself replaces it.) *)
Theorem forwarded_keeps_method_and_headers i u :
  In u (forwarded (app i)) →
  u_method u = in_method i ∧
  (∀ k, k ≠ "x-user-id" → k ≠ "x-user-email" → k ≠ "host" →
        u_headers u !! k = VStr <$> in_headers i !! k) ∧
  u_headers u !! "authorization" = VStr <$> in_headers i !! "authorization".
Proof.
  intros Hu.
  destruct (forwarded_shape i u Hu) as (p & o & _ & _ & _ & Hm & _ & Hh).
  split_and!; [done|by intros k ? ? _; apply Hh|]. by apply Hh.
Qed.

Lemma route_root_inv path :
  route_match "/" path = true → path = "" ∨ path = "/".
Proof.
  unfold route_match. cbn [drop_trailing_slash Ascii.eqb Bool.eqb strip_prefix_ci].
  destruct path as [|c rest]; [by left|]. right.
  destruct rest; [|by destruct c as [[] [] [] [] [] [] [] []]].
  by destruct c as [[] [] [] [] [] [] [] []].
Qed.

(** X8. The route table is unambiguous: a path is under at most one of the
    seven prefixes, and a path under one of them is neither the health nor
    the root endpoint, so the order in which the routes are registered never
    decides where a request goes. *)
Theorem route_prefixes_disjoint path p :
  In p route_prefixes → mount_match p path = true →
  (∀ q, In q route_prefixes → mount_match q path = true → q = p) ∧
  route_match "/api/health" path = false ∧ route_match "/" path = false.
Proof.
  unfold route_prefixes, protected_prefixes. simpl In. intros Hp Hm.
  split_and!.
  - intros q Hq Hmq.
    repeat (destruct Hp as [<-|Hp];
            [repeat (destruct Hq as [<-|Hq];
                     [first [reflexivity
                            |exfalso; revert Hmq;
                             lazymatch type of Hm with
                             | mount_match ?a _ = true =>
                                 lazymatch goal with
                                 | |- mount_match ?b _ = true → _ =>
                                     rewrite (mount_match_excl a b path
                                                eq_refl eq_refl Hm)
                                 end
                             end; discriminate]|]); destruct Hq|]).
    destruct Hp.
  - repeat (destruct Hp as [<-|Hp];
            [lazymatch type of Hm with
             | mount_match ?a _ = true =>
                 exact (route_match_excl a "/api/health" path eq_refl eq_refl Hm)
             end|]).
    destruct Hp.
  - destruct (route_match "/" path) eqn:Hr; [|done]. exfalso.
    destruct (route_root_inv path Hr) as [->| ->];
      repeat (destruct Hp as [<-|Hp]; [discriminate Hm|]); destruct Hp.
Qed.

(** X9. A header whose second space-separated field is empty, as in
    [Bearer ] followed by nothing or by a second space, counts as no token:
    on a protected route the answer is the 401 envelope, whatever follows,
    and nothing is sent upstream. *)
Theorem empty_token_field_401 i :
  protected_route i = true → is_options i = false → carries_token i "" →
  sent (app i) = [Response 401 (Json (envelope "No token provided"))] ∧
  forwarded (app i) = [].
Proof.
  intros Hp Ho (a & Ha & E).
  destruct (protected_route_mount i Hp) as (p & o & Hin & Hm).
  rewrite (app_protected i p o) by done. unfold guarded, verifyToken.
  cbn [start req]. rewrite bearer_token_accept, Ha.
  cbn [mbind option_bind]. by rewrite E.
Qed.

(** X10. Only the second space-separated field of the Authorization header
    counts: two header values with the same second field, for instance one
    with further fields after the token, make [verifyToken] hand over
    control the same way and leave the same exchange, up to the header
    itself. *)
Theorem only_second_field_matters x a b :
  split " " a !! 1%nat = split " " b !! 1%nat →
  verifyToken (with_authorization a x)
  = (let (sg, y) := verifyToken (with_authorization b x) in
     (sg, with_authorization a y)).
Proof.
  intros Hab. unfold verifyToken.
  rewrite !bearer_token_with_authorization, Hab.
  destruct (truthy _).
  - destruct (jwt_verify _ _).
    + unfold with_authorization, set_header, set_user.
      cbn [req sent forwarded headers method url user].
      do 2 f_equal. f_equal.
      rewrite (insert_insert_ne _ "authorization" "x-user-email") by done.
      rewrite (insert_insert_ne _ "authorization" "x-user-id") by done.
      by rewrite insert_insert_eq.
    + unfold res_json, with_authorization, set_header.
      cbn [req sent forwarded headers method url user].
      by rewrite insert_insert_eq.
  - unfold res_json, with_authorization, set_header.
    cbn [req sent forwarded headers method url user].
    by rewrite insert_insert_eq.
Qed.

(** X11. Validation is idempotent: the exchange [verifyToken] passes on
    would pass it again and come out unchanged, since the Authorization
    header stays in place and the identity headers are a function of the
    token alone. *)
Theorem verifyToken_idempotent x x' :
  verifyToken x = (Next, x') → verifyToken x' = (Next, x').
Proof.
  unfold verifyToken at 1.
  destruct (bearer_token (req x)) as [|token] eqn:Eb; [done|].
  destruct (truthy token) as [t|] eqn:Et; [|done].
  destruct (jwt_verify t JWT_SECRET) as [decoded|] eqn:Ev; [|done].
  intros [= <-].
  assert (bearer_token
            (set_header "x-user-email" (claim decoded "email")
               (set_header "x-user-id" (claim decoded "userId")
                  (set_user decoded (req x)))) = Token token) as Hb.
  { rewrite <- Eb. unfold bearer_token. cbn [set_header set_user headers].
    by rewrite !lookup_insert_ne by done. }
  unfold verifyToken. cbn [req sent forwarded]. rewrite Hb, Et, Ev.
  do 2 f_equal.
  unfold set_header, set_user. cbn [method url headers user]. f_equal.
  rewrite (insert_insert_ne _ "x-user-id" "x-user-email") by done.
  by rewrite !insert_insert_eq.
Qed.

Lemma env_or_nonempty name fallback :
  fallback ≠ "" → env_or name fallback ≠ "".
Proof.
  intros Hf. unfold env_or. destruct (env !! name) as [v|]; [|done].
  destruct (String.eqb v "") eqn:E; [done|]. by apply String.eqb_neq.
Qed.

(** X12. An environment variable set to the empty string counts as unset, so
    whatever the environment the signing secret, the port and the seven
    service URLs are never empty; with [JWT_SECRET] unset or empty the
    secret is [dev-secret-key]. *)
Theorem config_never_empty :
  JWT_SECRET ≠ "" ∧ PORT ≠ "" ∧
  Forall (λ e : string * string, e.2 ≠ "") (entries SERVICES) ∧
  (env !! "JWT_SECRET" = None ∨ env !! "JWT_SECRET" = Some "" →
   JWT_SECRET = "dev-secret-key").
Proof.
  split_and!.
  - by apply env_or_nonempty.
  - by apply env_or_nonempty.
  - unfold entries, SERVICES. cbn [AUTH USER PRODUCT PROVIDER TRUST MESSAGE NOTIFICATION].
    repeat (apply Forall_cons; split; [by apply env_or_nonempty|]).
    apply Forall_nil_2.
  - unfold JWT_SECRET, env_or. by intros [-> | ->].
Qed.

(** X13. The start-up log has eleven lines; its second line always reads
    [JWT_SECRET=set], also when the variable is missing and the built-in
    secret is in use, and every service is listed with the URL the proxies
    use. *)
Theorem startup_log_reports_secret_set :
  List.length startup_log = 11%nat ∧
  startup_log !! 1%nat = Some "[Gateway] JWT_SECRET=set" ∧
  (∀ name url, In (name, url) (entries SERVICES) →
               In ("  " +:+ name +:+ ": " +:+ url) startup_log).
Proof.
  assert (String.eqb JWT_SECRET "" = false) as Hs.
  { apply String.eqb_neq. by apply env_or_nonempty. }
  unfold startup_log. rewrite Hs. split_and!; [done|done|].
  intros name url Hin. apply in_or_app. right.
  by apply (in_map (λ e : string * string, "  " +:+ e.1 +:+ ": " +:+ e.2)
              _ (name, url)).
Qed.




Lemma strip_prefix_ci_app p s : strip_prefix_ci p (p +:+ s) = Some s.
Proof.
  induction p as [|a p IH]; [done|].
  change (String a p +:+ s) with (String a (p +:+ s)).
  cbn [strip_prefix_ci]. by rewrite Ascii.eqb_refl.
Qed.

(** X20. Prefixes end at a segment boundary: a request whose path goes on
    after a route prefix with anything but a slash, as in [/api/usersX] or
    [/api/auth-old/login], belongs to no route. Unless it is a preflight it
    is answered with the 404 envelope, no token is asked for and nothing is
    sent upstream. *)
Theorem prefix_lookalike_404 i p c rest :
  In p route_prefixes → c ≠ "/"%char →
  pathname (in_url i) = p +:+ String c rest → is_options i = false →
  sent (app i) = [Response 404 (Json (envelope "Route not found"))] ∧
  forwarded (app i) = [].
Proof.
  intros Hp Hc Hpath Ho.
  assert (is_Some (strip_prefix_ci p (pathname (in_url i)))) as Hsome.
  { rewrite Hpath, strip_prefix_ci_app. eauto. }
  assert (∀ q, In q route_prefixes →
               mount_match q (pathname (in_url i)) = false) as Hmounts.
  { intros q Hin. destruct (mount_match q (pathname (in_url i))) eqn:Hm; [|done].
    exfalso. pose proof (mount_match_strip _ _ Hm) as Hsq.
    destruct (strip_prefix_ci_comparable p q _ Hsome Hsq) as [[? E]|[? E]];
      unfold route_prefixes, protected_prefixes in Hp, Hin;
      simpl In in Hp, Hin;
      repeat (destruct Hp as [<-|Hp];
              [repeat (destruct Hin as [<-|Hin];
                       [first [discriminate E
                              |revert Hm; unfold mount_match;
                               rewrite Hpath, strip_prefix_ci_app;
                               apply Ascii.eqb_neq in Hc; by rewrite Hc]|]);
               destruct Hin|]);
      destruct Hp. }
  assert (route_match "/api/health" (pathname (in_url i)) = false) as Hhealth.
  { destruct (route_match "/api/health" (pathname (in_url i))) eqn:Hr; [|done].
    exfalso. pose proof (route_match_strip _ _ Hr) as Hsr.
    destruct (strip_prefix_ci_comparable p _ _ Hsome Hsr) as [[? E]|[? E]];
      unfold route_prefixes, protected_prefixes in Hp; simpl In in Hp;
      repeat (destruct Hp as [<-|Hp]; [discriminate E|]); destruct Hp. }
  assert (route_match "/" (pathname (in_url i)) = false) as Hroot.
  { destruct (route_match "/" (pathname (in_url i))) eqn:Hr; [|done].
    exfalso. rewrite Hpath in Hr.
    unfold route_prefixes, protected_prefixes in Hp; simpl In in Hp.
    destruct (route_root_inv _ Hr) as [E|E];
      repeat (destruct Hp as [<-|Hp]; [discriminate E|]); destruct Hp. }
  rewrite app_routes by done. cbn [drop layers].
  rewrite dispatch_unmatched
    by (cbn [layer_matches start req accept url]; by rewrite Hhealth).
  do 7 (rewrite dispatch_unmatched
          by (apply Hmounts; unfold route_prefixes, protected_prefixes;
              cbn; tauto)).
  rewrite dispatch_unmatched
    by (cbn [layer_matches start req accept url]; by rewrite Hroot).
  by rewrite (dispatch_halt _ _ _ (res_json 404 (envelope "Route not found") (start i))).
Qed.



(** X18. [onProxyReq] leaves the outgoing request alone when [req.body] is
    absent or empty. Otherwise it writes exactly one chunk and ends the
    request; [Content-Length] is the byte length of that chunk, a
    [Content-Type] the request already has is kept and a missing one becomes
    [application/json]; a string body is written as it is, any other body
    as [JSON.stringify] renders it; no other header changes. *)
Theorem onProxyReq_resends_body body pr :
  ((js_truthy body && has_keys body)%bool = false → onProxyReq body pr = pr) ∧
  ((js_truthy body && has_keys body)%bool = true →
   ∃ data,
     pr_written (onProxyReq body pr) = (pr_written pr ++ [data])%list ∧
     pr_ended (onProxyReq body pr) = true ∧
     data = match body with VStr s => s | v => JSON_stringify v end ∧
     getHeader "Content-Length" (onProxyReq body pr)
     = VNum (Z.of_nat (String.length data)) ∧
     getHeader "Content-Type" (onProxyReq body pr)
     = (if js_truthy (getHeader "Content-Type" pr)
        then getHeader "Content-Type" pr else VStr "application/json") ∧
     (∀ k, k ≠ "content-length" → k ≠ "content-type" →
           pr_headers (onProxyReq body pr) !! k = pr_headers pr !! k)).
Proof.
  unfold onProxyReq. split; intros ->; [done|].
  eexists. split_and!; try reflexivity.
  - unfold getHeader, setHeader. cbn [pr_headers toLowerCase].
    change (toLowerCase "Content-Length") with "content-length".
    by rewrite lookup_insert_eq.
  - unfold getHeader, setHeader. cbn [pr_headers].
    change (toLowerCase "Content-Length") with "content-length".
    change (toLowerCase "Content-Type") with "content-type".
    rewrite lookup_insert_ne by done. by rewrite lookup_insert_eq.
  - intros k Hl Ht. unfold setHeader. cbn [pr_headers].
    change (toLowerCase "Content-Length") with "content-length".
    change (toLowerCase "Content-Type") with "content-type".
    by rewrite !lookup_insert_ne by done.
Qed.

End Gateway.

(** ** Worked examples *)

Import Fixtures.

Lemma C1_missing_token_401_witness :
  (protected_route url_parse0 get_users_anonymous = true ∧
   is_options get_users_anonymous = false ∧
   lacks_token get_users_anonymous) ∧
  sent (app env0 jwt_verify0 all_up now0 url_parse0 get_users_anonymous)
  = [Response 401 (Json (envelope "No token provided"))] ∧
  forwarded (app env0 jwt_verify0 all_up now0 url_parse0 get_users_anonymous) = [].
Proof.
  assert (lacks_token get_users_anonymous) as Hl by (left; reflexivity).
  split; [split; [reflexivity|split; [reflexivity|exact Hl]]|].
  apply C1_missing_token_401; [reflexivity|reflexivity|exact Hl].
Defined.

(** C1 as it is stated fails on a CORS preflight: [cors()] answers an OPTIONS
    request to a protected route itself, 204 without a body, before
    [verifyToken] is reached. *)
Lemma C1_preflight_counterexample :
  protected_route url_parse0 preflight_users = true ∧
  lacks_token preflight_users ∧
  sent (app env0 jwt_verify0 all_up now0 url_parse0 preflight_users)
  = [Response 204 NoBody] ∧
  sent (app env0 jwt_verify0 all_up now0 url_parse0 preflight_users)
  ≠ [Response 401 (Json (envelope "No token provided"))].
Proof.
  split; [reflexivity|]. split; [left; reflexivity|].
  split; [reflexivity|discriminate].
Qed.

Lemma C2_rejections_indistinguishable_witness :
  sent (app env0 jwt_verify0 all_up now0 url_parse0 get_trust_forged)
  = [Response 403 (Json (envelope "Invalid or expired token"))] ∧
  sent (app env0 jwt_verify0 all_up now0 url_parse0 get_messages_expired)
  = sent (app env0 jwt_verify0 all_up now0 url_parse0 get_trust_forged).
Proof.
  apply (C2_rejections_indistinguishable env0 jwt_verify0 all_up now0 url_parse0
           get_trust_forged get_messages_expired "tok.forged" "tok.expired"
           (JsonWebTokenError "invalid signature") TokenExpiredError).
  - reflexivity.
  - reflexivity.
  - reflexivity.
  - reflexivity.
  - exists "Bearer tok.forged". split; reflexivity.
  - discriminate.
  - reflexivity.
  - exists "Bearer tok.expired". split; reflexivity.
  - discriminate.
  - reflexivity.
Defined.

(** C2 as it is stated fails on CORS preflights: both requests are answered
    204, not 403. *)
Lemma C2_preflight_counterexample :
  protected_route url_parse0 preflight_forged = true ∧
  protected_route url_parse0 preflight_expired = true ∧
  carries_token preflight_forged "tok.forged" ∧
  carries_token preflight_expired "tok.expired" ∧
  jwt_verify0 "tok.forged" (JWT_SECRET env0)
  = VerifyThrows (JsonWebTokenError "invalid signature") ∧
  jwt_verify0 "tok.expired" (JWT_SECRET env0) = VerifyThrows TokenExpiredError ∧
  status <$> sent (app env0 jwt_verify0 all_up now0 url_parse0 preflight_forged) = [204] ∧
  status <$> sent (app env0 jwt_verify0 all_up now0 url_parse0 preflight_expired) = [204].
Proof.
  repeat split; try reflexivity.
  - exists "Bearer tok.forged". split; reflexivity.
  - exists "Bearer tok.expired". split; reflexivity.
Qed.


(** C4 at a protected route: with the user service refusing connections, a
    request with a valid token is answered by the proxy package's default
    error handler, 504 with a text body, not by the 503 envelope. *)
Theorem C4_protected_backend_down :
  sent (app env0 jwt_verify0 all_down now0 url_parse0 get_users_alice)
  = [Response 504
       (Text "Error occurred while trying to proxy: gateway.reacher.test/7")].
Proof. reflexivity. Qed.

(** The public route does report the same failure as 503. *)
Example auth_backend_down :
  sent (app env0 jwt_verify0 all_down now0 url_parse0
          (Incoming "POST" "/api/auth/login" no_headers eq_refl))
  = [Response 503 (Json (envelope "Auth service unavailable"))].
Proof. reflexivity. Qed.




(** Other methods on [/] do fall through to the 404. *)
Example post_root_404 :
  sent (app env0 jwt_verify0 all_up now0 url_parse0 (Incoming "POST" "/" no_headers eq_refl))
  = [Response 404 (Json (envelope "Route not found"))].
Proof. reflexivity. Qed.

(** C7 at a prefix written in another letter case: Express matches the mount
    without regard to case, the rewrite rule does not match, and the upstream
    receives the target with the routing prefix still on it. *)
Theorem C7_uppercase_prefix_kept :
  mount_match "/api/auth" (pathname url_parse0 (in_url post_login_uppercase)) = true ∧
  forwarded (app env0 jwt_verify0 all_up now0 url_parse0 post_login_uppercase)
  = [UpstreamRequest "http://localhost:5001" "POST" "/API/AUTH/login" ∅].
Proof. split; reflexivity. Qed.

(** The same request with the prefix as registered. *)
Example login_prefix_stripped :
  forwarded (app env0 jwt_verify0 all_up now0 url_parse0
               (Incoming "POST" "/api/auth/login?next=%2F" no_headers eq_refl))
  = [UpstreamRequest "http://localhost:5001" "POST" "/login?next=%2F" ∅].
Proof. reflexivity. Qed.



Lemma C9_scheme_word_ignored_witness :
  bearer_token (req (with_authorization ("Token" +:+ " " +:+ "tok.alice")
                       (start get_users_anonymous)))
  = bearer_token (req (with_authorization ("Bearer " +:+ "tok.alice")
                         (start get_users_anonymous))) ∧
  bearer_token (req (with_authorization ("Token" +:+ " " +:+ "tok.alice")
                       (start get_users_anonymous)))
  = Token (Some "tok.alice") ∧
  verifyToken env0 jwt_verify0
    (with_authorization ("Token" +:+ " " +:+ "tok.alice") (start get_users_anonymous))
  = (let (sg, y) := verifyToken env0 jwt_verify0
                      (with_authorization ("Bearer " +:+ "tok.alice")
                         (start get_users_anonymous)) in
     (sg, with_authorization ("Token" +:+ " " +:+ "tok.alice") y)) ∧
  verifyToken env0 jwt_verify0
    (with_authorization "Token tok.forged" (start get_users_anonymous))
  = (Halt, res_json 403 (envelope "Invalid or expired token")
             (with_authorization "Token tok.forged" (start get_users_anonymous))) ∧
  split " " ("Token" +:+ " " +:+ "tok.alice") !! 1%nat = Some "tok.alice".
Proof.
  destruct (C9_scheme_word_ignored env0 jwt_verify0 (start get_users_anonymous)
              "Token" "tok.alice" eq_refl)
    as (Hsame & Hfield & Hverify & Hcall & _ & Htoken).
  split; [exact Hsame|]. split; [exact Hfield|]. split; [exact Hverify|].
  split; [exact (Hcall "Token tok.forged")|exact (Htoken eq_refl)].
Defined.

Lemma C10_failure_leaves_request_witness :
  req (res_json 403 (envelope "Invalid or expired token") (start get_trust_forged))
  = req (start get_trust_forged) ∧
  forwarded (res_json 403 (envelope "Invalid or expired token") (start get_trust_forged))
  = forwarded (start get_trust_forged) ∧
  (∃ r, sent (res_json 403 (envelope "Invalid or expired token") (start get_trust_forged))
        = (sent (start get_trust_forged) ++ [r])%list ∧
        (r = Response 401 (Json (envelope "No token provided")) ∨
         r = Response 403 (Json (envelope "Invalid or expired token")))) ∧
  (∀ rest, run_stack (verifyToken env0 jwt_verify0 :: rest) (start get_trust_forged)
           = (Halt, res_json 403 (envelope "Invalid or expired token")
                      (start get_trust_forged))).
Proof.
  apply (C10_failure_leaves_request env0 jwt_verify0 (start get_trust_forged)).
  reflexivity.
Defined.

(** ** Backend independence *)

(** X19. Whether a request to a protected route is turned away does not
    depend on the backends: when nothing is sent upstream for it, the whole
    exchange is the same whatever the backends would have done. *)
Theorem rejection_independent_of_backends env jwt_verify up1 up2 now parse i :
  protected_route parse i = true →
  forwarded (app env jwt_verify up1 now parse i) = [] →
  app env jwt_verify up2 now parse i = app env jwt_verify up1 now parse i.
Proof.
  intros Hp Hf. destruct (is_options i) eqn:Ho.
  { by rewrite !app_preflight. }
  destruct (protected_route_mount env jwt_verify now parse i Hp)
    as (p & o & Hin & Hm).
  rewrite (app_protected env jwt_verify up1 now parse i p o) in Hf |- * by done.
  rewrite (app_protected env jwt_verify up2 now parse i p o) by done.
  unfold guarded in *.
  destruct (verifyToken_start env jwt_verify i)
    as [E|(t & Hc & Hn & [[_ E]|(decoded & Hv & E)])]; rewrite E in Hf |- *;
    [reflexivity|reflexivity|].
  match goal with
  | |- context [createProxyMiddleware up2 o ?x] =>
      destruct (outgoing_ok (headers (req x))) eqn:Hok
  end.
  - exfalso. revert Hf.
    match goal with
    | |- context [createProxyMiddleware up1 o ?x] =>
        destruct (proxy_outcome env up1 p o x) as (r & Hr & _);
          [by right|exact Hok|]
    end.
    destruct (createProxyMiddleware up1 o _) as [[] y]; cbn [snd] in Hr;
      subst y; cbn [forwarded]; intros Hf; by apply app_eq_nil in Hf as [_ ?].
  - match goal with
    | |- context [createProxyMiddleware up2 o ?x] =>
        rewrite (createProxyMiddleware_throws up1 o x Hok),
                (createProxyMiddleware_throws up2 o x Hok)
    end.
    reflexivity.
Qed.

(** ** Worked examples of the further properties *)


Lemma protected_forward_requires_token_witness :
  ∃ t decoded, carries_token get_users_alice t ∧ t ≠ "" ∧
               jwt_verify0 t (JWT_SECRET env0) = Verified decoded.
Proof.
  apply (protected_forward_requires_token env0 jwt_verify0 all_up now0 url_parse0
           get_users_alice).
  - reflexivity.
  - intros H. vm_compute in H. discriminate H.
Defined.

Lemma auth_route_unchecked_witness :
  forwarded (app env0 jwt_verify0 all_up now0 url_parse0 post_login_as_admin)
  = [UpstreamRequest (AUTH (SERVICES env0)) "POST"
       (rewritePath [("^/api/auth", "")] "/api/auth/login")
       (VStr <$> in_headers post_login_as_admin)] ∧
  user (req (app env0 jwt_verify0 all_up now0 url_parse0 post_login_as_admin)) = None.
Proof.
  apply (auth_route_unchecked env0 jwt_verify0 all_up now0 url_parse0 post_login_as_admin).
  - reflexivity.
  - reflexivity.
Defined.

Lemma upstream_reply_relayed_witness :
  sent (app env0 jwt_verify0 all_up now0 url_parse0 get_users_alice)
  = [Response 200 (Json (VObj [("path", VStr "/7")]))].
Proof.
  apply (upstream_reply_relayed env0 jwt_verify0 all_up now0 url_parse0 get_users_alice
           alice_upstream).
  - vm_compute. left. reflexivity.
  - reflexivity.
Defined.


Lemma forwarded_keeps_method_and_headers_witness :
  u_method alice_upstream = in_method get_users_alice ∧
  (∀ k, k ≠ "x-user-id" → k ≠ "x-user-email" → k ≠ "host" →
        u_headers alice_upstream !! k = VStr <$> in_headers get_users_alice !! k) ∧
  u_headers alice_upstream !! "authorization"
  = VStr <$> in_headers get_users_alice !! "authorization".
Proof.
  apply (forwarded_keeps_method_and_headers env0 jwt_verify0 all_up now0 url_parse0).
  vm_compute. left. reflexivity.
Defined.

Lemma route_prefixes_disjoint_witness :
  (∀ q, In q route_prefixes → mount_match q "/api/trust/reports" = true →
        q = "/api/trust") ∧
  route_match "/api/health" "/api/trust/reports" = false ∧
  route_match "/" "/api/trust/reports" = false.
Proof.
  apply (route_prefixes_disjoint "/api/trust/reports" "/api/trust").
  - do 4 right. left. reflexivity.
  - reflexivity.
Defined.

Lemma empty_token_field_401_witness :
  sent (app env0 jwt_verify0 all_up now0 url_parse0 get_users_two_spaces)
  = [Response 401 (Json (envelope "No token provided"))] ∧
  forwarded (app env0 jwt_verify0 all_up now0 url_parse0 get_users_two_spaces) = [].
Proof.
  apply (empty_token_field_401 env0 jwt_verify0 all_up now0 url_parse0 get_users_two_spaces).
  - reflexivity.
  - reflexivity.
  - exists "Bearer  tok.alice". split; reflexivity.
Defined.

Lemma only_second_field_matters_witness :
  verifyToken env0 jwt_verify0
    (with_authorization "Bearer tok.alice and more" (start get_users_anonymous))
  = (let (sg, y) := verifyToken env0 jwt_verify0
                      (with_authorization "Bearer tok.alice"
                         (start get_users_anonymous)) in
     (sg, with_authorization "Bearer tok.alice and more" y)).
Proof.
  apply (only_second_field_matters env0 jwt_verify0 (start get_users_anonymous)
           "Bearer tok.alice and more" "Bearer tok.alice").
  reflexivity.
Defined.

Lemma verifyToken_idempotent_witness :
  verifyToken env0 jwt_verify0
    (verifyToken env0 jwt_verify0 (start get_users_alice)).2
  = (Next, (verifyToken env0 jwt_verify0 (start get_users_alice)).2).
Proof.
  apply (verifyToken_idempotent env0 jwt_verify0 (start get_users_alice)).
  reflexivity.
Defined.

Lemma auth_unreachable_503_witness :
  sent (app env0 jwt_verify0 all_down now0 url_parse0 post_login_as_admin)
  = [Response 503 (Json (envelope "Auth service unavailable"))].
Proof.
  apply (auth_unreachable_503 env0 jwt_verify0 all_down now0 url_parse0 post_login_as_admin).
  - reflexivity.
  - reflexivity.
  - intros u _. exists "ECONNREFUSED". reflexivity.
Defined.

Lemma legacy_unreachable_503_witness :
  ∃ service,
    In ("/api/trust", service)
       [("/api/users", "User"); ("/api/products", "Product");
        ("/api/providers", "Provider"); ("/api/trust", "Trust");
        ("/api/messages", "Message"); ("/api/notifications", "Notification")] ∧
    createProxyMiddleware all_down
      (ProxyOptions (TRUST (SERVICES env0)) true [("^/api/trust", "")]
         (Some (unavailable "Trust service unavailable")))
      (start get_trust_forged)
    = (Halt,
       Exchange (req (start get_trust_forged))
         (sent (start get_trust_forged) ++
          [Response 503 (Json (envelope (service +:+ " service unavailable")))])
         (forwarded (start get_trust_forged) ++
          [proxied
             (ProxyOptions (TRUST (SERVICES env0)) true [("^/api/trust", "")]
                (Some (unavailable "Trust service unavailable")))
             (start get_trust_forged)])).
Proof.
  apply (legacy_unreachable_503 env0 jwt_verify0 all_down now0 url_parse0
           "/api/trust" _ (start get_trust_forged) "ECONNREFUSED").
  - do 3 right. left. reflexivity.
  - reflexivity.
  - reflexivity.
Defined.



Lemma rejection_independent_of_backends_witness :
  app env0 jwt_verify0 all_down now0 url_parse0 get_messages_expired
  = app env0 jwt_verify0 all_up now0 url_parse0 get_messages_expired.
Proof.
  apply (rejection_independent_of_backends env0 jwt_verify0 all_up all_down now0 url_parse0
           get_messages_expired).
  - reflexivity.
  - reflexivity.
Defined.

Lemma protected_rejections_witness :
  (verifyToken env0 jwt_verify0 (start get_users_nameless)).1 ≠ Throw ∧
  (sent (app env0 jwt_verify0 all_up now0 url_parse0 get_users_nameless)
   = [Response 204 NoBody] ∨
   sent (app env0 jwt_verify0 all_up now0 url_parse0 get_users_nameless)
   = [Response 401 (Json (envelope "No token provided"))] ∨
   sent (app env0 jwt_verify0 all_up now0 url_parse0 get_users_nameless)
   = [Response 403 (Json (envelope "Invalid or expired token"))] ∨
   sent (app env0 jwt_verify0 all_up now0 url_parse0 get_users_nameless)
   = [Response 500 (Json (envelope "Internal server error"))] ∧
   ∃ t decoded,
     carries_token get_users_nameless t ∧ t ≠ "" ∧
     jwt_verify0 t (JWT_SECRET env0) = Verified decoded ∧
     (validHeaderValue (claim decoded "userId")
      && validHeaderValue (claim decoded "email") = false)%bool).
Proof.
  apply (protected_rejections env0 jwt_verify0 all_up now0 url_parse0
           get_users_nameless).
  - reflexivity.
  - reflexivity.
Defined.

Lemma prefix_lookalike_404_witness :
  sent (app env0 jwt_verify0 all_up now0 url_parse0 get_lookalike)
  = [Response 404 (Json (envelope "Route not found"))] ∧
  forwarded (app env0 jwt_verify0 all_up now0 url_parse0 get_lookalike) = [].
Proof.
  apply (prefix_lookalike_404 env0 jwt_verify0 all_up now0 url_parse0 get_lookalike
           "/api/users" "X"%char "/7").
  - right. left. reflexivity.
  - discriminate.
  - reflexivity.
  - reflexivity.
Defined.

(** Routing is on the parsed path: a fragment, or the scheme and host of an
    absolute-form target, do not take a request out of a protected route. *)
Example fragment_target_protected :
  pathname url_parse0 "/api/users#frag" = "/api/users" ∧
  sent (app env0 jwt_verify0 all_up now0 url_parse0
          (Incoming "GET" "/api/users#frag" no_headers eq_refl))
  = [Response 401 (Json (envelope "No token provided"))].
Proof. split; reflexivity. Qed.

Example absolute_target_protected :
  pathname url_parse0 "http://gateway.reacher.test/api/users/7" = "/api/users/7" ∧
  sent (app env0 jwt_verify0 all_up now0 url_parse0
          (Incoming "GET" "http://gateway.reacher.test/api/users/7" no_headers
             eq_refl))
  = [Response 401 (Json (envelope "No token provided"))].
Proof. split; reflexivity. Qed.

(** A verified token whose [email] claim holds a line break cannot be put in
    a header either: the request is answered 500 and nothing is sent. *)
Example illegal_claim_500 :
  let verify := λ _ _ : string,
      Verified (JwtPayload [("userId", VStr "u-17");
                            ("email", VStr (String (ascii_of_nat 10) "x"))]) in
  sent (app env0 verify all_up now0 url_parse0 get_users_alice)
  = [Response 500 (Json (envelope "Internal server error"))] ∧
  forwarded (app env0 verify all_up now0 url_parse0 get_users_alice) = [].
Proof. split; reflexivity. Qed.

(** A form body that an earlier parser turned into an object goes out again
    as JSON text under the content type it came with. *)
Example onProxyReq_keeps_content_type :
  getHeader "Content-Type"
    (onProxyReq (λ _, "{}") (VObj [("email", VStr "alice@reacher.test")])
       outgoing_form)
  = VStr "application/x-www-form-urlencoded" ∧
  onProxyReq (λ _, "{}") (VObj []) outgoing_form = outgoing_form ∧
  onProxyReq (λ _, "{}") (VNum 7) outgoing_form = outgoing_form.
Proof. repeat split; reflexivity. Qed.

(** With no variable set the log names the default port and URLs. *)
Example startup_log_defaults :
  startup_log env0
  = ["[Gateway] listening on http://0.0.0.0:5000";
     "[Gateway] JWT_SECRET=set";
     "[Gateway] NODE_ENV=development";
     "[Gateway] Service mapping:";
     "  AUTH: http://localhost:5001";
     "  USER: http://localhost:5002";
     "  PRODUCT: http://localhost:5003";
     "  PROVIDER: http://localhost:5004";
     "  TRUST: http://localhost:5005";
     "  MESSAGE: http://localhost:5006";
     "  NOTIFICATION: http://localhost:5007"].
Proof. reflexivity. Qed.
